(** * EscrowX: the publish pipeline and the matching engine

    A shallow embedding of
      - [src/app/profile/page.tsx]: the two page components it holds
        ([ProfilePage] and [PostJobPage], each with its own [onSubmit]) and
        the matching functions [computeMatch] and [getTopMatches];
      - the IPFS client ([uploadJSONToIPFS], [uploadFilesToIPFS]).

    Conventions of the embedding.
      - JavaScript numbers that hold integers (scores, array lengths, file
        sizes, indices) are [Z].
      - The one quotient the code forms, [skillOverlap / Math.max(1, n)],
        is an exact rational ([Q]); [Math.round] is rounding to the nearest
        integer with ties towards +infinity.  [double_rounding_agrees]
        checks this reading against the double operations for every job
        with up to 64 skills.
      - Prices and budgets are IEEE doubles ([PrimFloat.float]), compared
        with the double comparison, so a [NaN] budget compares false.
      - [parseFloat] belongs to the JavaScript runtime and is a parameter of
        the matching section.
      - An [async] handler is a computation that reads the outside world
        (token, answers of the storage service, clock), appends to a trace
        of what it does, and returns or throws; [await] is sequencing. *)

From Stdlib Require Import List ZArith QArith Qround Bool Lia.
From Stdlib Require Import String Ascii.
From Stdlib Require Import Floats.PrimFloat.
From Stdlib Require Import Sorting.Sorted Sorting.Permutation.
Import ListNotations.

Local Open Scope Z_scope.

(** ** JavaScript helpers *)

Module JS.

(** [Array.prototype.includes] on an array of strings. *)
Definition includes (l : list string) (s : string) : bool :=
  existsb (fun x => String.eqb x s) l.

(** [Array.prototype.indexOf]: first position of [x], or -1. *)
Fixpoint indexOfFrom {A : Type} (eqb : A -> A -> bool) (x : A) (l : list A)
         (i : Z) : Z :=
  match l with
  | [] => -1
  | y :: r => if eqb y x then i else indexOfFrom eqb x r (i + 1)
  end.

Definition indexOf {A : Type} (eqb : A -> A -> bool) (l : list A) (x : A) : Z :=
  indexOfFrom eqb x l 0.

(** [Math.round]: nearest integer, a tie goes up. *)
Definition Math_round (q : Q) : Z := Qfloor (q + (1 # 2)).

(** [Array.prototype.slice(0, n)]. *)
Definition slice0 {A : Type} (n : nat) (l : list A) : list A := firstn n l.

(** [s || d] on strings: the empty string is falsy. *)
Definition strOr (s d : string) : string :=
  if String.eqb s EmptyString then d else s.

(** [Array.prototype.sort(cmp)].  The language guarantees a stable sort; it
    is modelled by the stable insertion sort: an element moves in front of
    the elements that came after it in the input unless the comparator puts
    one of them strictly first. *)
Section Sort.
Context {A : Type} (cmp : A -> A -> Z).

Fixpoint insert (x : A) (l : list A) : list A :=
  match l with
  | [] => [x]
  | y :: r => if cmp y x <? 0 then y :: insert x r else x :: y :: r
  end.

Fixpoint sort (l : list A) : list A :=
  match l with
  | [] => []
  | x :: r => insert x (sort r)
  end.

End Sort.

End JS.

(** ** Data of the job form and of the service catalogue *)

Inductive Experience := Entry | Mid | Senior | Expert.

Definition Experience_eqb (a b : Experience) : bool :=
  match a, b with
  | Entry, Entry | Mid, Mid | Senior, Senior | Expert, Expert => true
  | _, _ => false
  end.

Inductive Currency := USD | EUR | ETH | MATIC | USDC.
Inductive DurationType := Days | Weeks | Date.
Inductive WorkType := FullTime | PartTime | Contract | Hourly.
Inductive LocationPref := Remote | OnSite | Hybrid.
Inductive ContactMethod := WalletDM | Email | Phone.

(** A browser [File]: only its name and its size in bytes are read. *)
Record File := mkFile { file_name : string; file_size : Z }.

(** A form field registered on a file input: [undefined] or a [FileList]. *)
Definition FileListField := option (list File).

(** [JobFormValues], the type inferred from [jobSchema]. *)
Record JobFormValues := mkJob {
  job_title : string;
  job_description : string;
  job_category : string;
  job_experience : Experience;
  job_skills : list string;
  job_budgetMin : string;
  job_budgetMax : string;
  job_currency : Currency;
  job_durationType : DurationType;
  job_durationValue : string;
  job_workType : WorkType;
  job_locationPref : LocationPref;
  job_location : option string;
  job_deadline : string;
  job_contactMethod : ContactMethod;
  job_attachments : FileListField
}.

Record ServiceMock := mkService {
  title : string;
  description : string;
  skills : list string;
  experience : Experience;
  priceMin : float;
  priceMax : float;
  remote : bool
}.

Definition MOCK_SERVICES : list ServiceMock :=
  [ mkService "Solidity Engineer" "Smart contract development and audits"
      ["Solidity"; "Hardhat"; "Security"]%string Senior 50%float 100%float true;
    mkService "Web3 Frontend Dev" "Next.js + Wagmi dApp UIs"
      ["React"; "Next.js"; "Wagmi"; "Viem"]%string Mid 35%float 70%float true;
    mkService "DeFi Strategist" "Tokenomics and protocol design"
      ["AI/ML"; "Design"; "Security"]%string Expert 80%float 150%float true ].

(** The literal [['Entry','Mid','Senior','Expert']] of [computeMatch]. *)
Definition LEVELS : list Experience := [Entry; Mid; Senior; Expert].

(** A catalogue entry with its score: [{ ...s, score }]. *)
Record Scored := mkScored { svc : ServiceMock; score : Z }.

(** ** The matching engine *)

Section Matching.
Variable parseFloat : string -> float.

  (** The four [const]s of [computeMatch], each as a function of the two
      arguments. *)
Definition skillOverlap (job : JobFormValues) (service : ServiceMock) : Z :=
    Z.of_nat (List.length (filter (fun s => JS.includes (skills service) s)
                             (job_skills job))).

Definition skillScore (job : JobFormValues) (service : ServiceMock) : Z :=
    Z.min 100
      (JS.Math_round
         ((inject_Z (skillOverlap job service)
           / inject_Z (Z.max 1 (Z.of_nat (List.length (job_skills job))))) * 60)).

Definition expScore (job : JobFormValues) (service : ServiceMock) : Z :=
    if Experience_eqb (job_experience job) (experience service) then 20
    else if JS.indexOf Experience_eqb LEVELS (job_experience job)
            <=? JS.indexOf Experience_eqb LEVELS (experience service)
         then 10 else 5.

Definition budgetFit (job : JobFormValues) (service : ServiceMock) : Z :=
    let budgetMin := parseFloat (JS.strOr (job_budgetMin job) "0") in
    let budgetMax := parseFloat (JS.strOr (job_budgetMax job) "0") in
    if PrimFloat.leb budgetMin (priceMin service)
       && PrimFloat.leb (priceMax service) budgetMax
    then 15 else 5.

Definition remoteFit (job : JobFormValues) (service : ServiceMock) : Z :=
    match job_locationPref job with
    | Remote => if remote service then 5 else 0
    | _ => 0
    end.

Definition computeMatch (job : JobFormValues) (service : ServiceMock) : Z :=
    let skillOverlap :=
      Z.of_nat (List.length (filter (fun s => JS.includes (skills service) s)
                               (job_skills job))) in
    let skillScore :=
      Z.min 100
        (JS.Math_round
           ((inject_Z skillOverlap
             / inject_Z (Z.max 1 (Z.of_nat (List.length (job_skills job))))) * 60)) in
    let expScore :=
      if Experience_eqb (job_experience job) (experience service) then 20
      else if JS.indexOf Experience_eqb LEVELS (job_experience job)
              <=? JS.indexOf Experience_eqb LEVELS (experience service)
           then 10 else 5 in
    let budgetMin := parseFloat (JS.strOr (job_budgetMin job) "0") in
    let budgetMax := parseFloat (JS.strOr (job_budgetMax job) "0") in
    let budgetFit :=
      if PrimFloat.leb budgetMin (priceMin service)
         && PrimFloat.leb (priceMax service) budgetMax
      then 15 else 5 in
    let remoteFit :=
      match job_locationPref job with
      | Remote => if remote service then 5 else 0
      | _ => 0
      end in
    Z.min 100 (skillScore + expScore + budgetFit + remoteFit).

  (** [getTopMatches] over an arbitrary catalogue; the code runs it on
      [MOCK_SERVICES]. *)
Definition topMatchesOf (services : list ServiceMock) (job : JobFormValues)
    : list Scored :=
    JS.slice0 3
      (JS.sort (fun a b => score b - score a)
         (map (fun s => mkScored s (computeMatch job s)) services)).

Definition getTopMatches (job : JobFormValues) : list Scored :=
    topMatchesOf MOCK_SERVICES job.

End Matching.

(** ** The skill component in double precision

    [computeMatch] forms the quotient and the product in IEEE doubles.  The
    definitions below compute the same expression with the double
    operations, to compare it with the exact reading used in [skillScore].
    The form offers 16 skills, so a job has at most 16 of them. *)

(** The double that holds an integer (exact below 2^53). *)
Fixpoint doubleOfPos (p : positive) : float :=
  match p with
  | xH => 1%float
  | xO q => (2 * doubleOfPos q)%float
  | xI q => (2 * doubleOfPos q + 1)%float
  end.

Definition doubleOfZ (z : Z) : float :=
  match z with
  | 0 => 0%float
  | Zpos p => doubleOfPos p
  | Zneg p => (- doubleOfPos p)%float
  end.

(** [Math.round] on a double in [0, 2^51): adding and subtracting 2^52
    gives the nearest integer (ties to even); a tie is then moved up. *)
Definition Math_round_double (x : float) : float :=
  let n := (x + 4503599627370496 - 4503599627370496)%float in
  if PrimFloat.eqb (x - n)%float 0.5%float then (n + 1)%float else n.

(** [Math.min] on two doubles that are not [NaN]. *)
Definition Math_min_double (a b : float) : float :=
  if PrimFloat.ltb b a then b else a.

Definition skillScoreDouble (overlap required : Z) : float :=
  Math_min_double 100%float
    (Math_round_double
       ((doubleOfZ overlap / doubleOfZ (Z.max 1 required)) * 60)%float).

Definition skillScoreExact (overlap required : Z) : Z :=
  Z.min 100
    (JS.Math_round ((inject_Z overlap / inject_Z (Z.max 1 required)) * 60)).

(** Both readings agree for every overlap [k <= n] and every [n <= bound]. *)
Definition agreesUpTo (bound : nat) : bool :=
  forallb (fun n =>
    forallb (fun k =>
      PrimFloat.eqb
        (skillScoreDouble (Z.of_nat k) (Z.of_nat n))
        (doubleOfZ (skillScoreExact (Z.of_nat k) (Z.of_nat n))))
      (seq 0 (S n)))
    (seq 0 (S bound)).

(** ** Data of the profile form *)

Inductive Availability := Available | Busy | OnLeave.
Inductive Visibility := Public | Private.

Record WorkEntry := mkWorkEntry {
  we_name : string;
  we_role : string;
  we_start : string;
  we_end : string;
  we_description : string;
  we_skillsUsed : option (list string);
  we_link : option string
}.

(** [ProfileFormValues], the type inferred from [profileSchema]. *)
Record ProfileFormValues := mkProfile {
  displayName : string;
  email : string;
  phone : string;
  countryCode : string;
  bio : string;
  primaryOccupation : string;
  secondaryOccupation : option string;
  yearsExperience : string;
  hourlyRate : string;
  rateCurrency : Currency;
  availability : Availability;
  pf_skills : list string;
  languages : list string;
  certifications : FileListField;
  workHistory : list WorkEntry;
  portfolioFiles : FileListField;
  profilePicture : FileListField;
  visibility : Visibility
}.

(** ** The world the pages run in

    The outside world is read-only for a run: the environment variable that
    holds the storage token, the answers of the storage service (one per
    network attempt, in order) and the clock.  What a run does is recorded
    in a trace, in the order it happens. *)

(** A thrown value; only [e.message] is ever read. *)
Record JsError := mkError { message : string }.

(** What [res.json()] gives: it rejects, or yields an object whose [cid]
    may be missing. *)
Inductive JsonResult :=
| JsonRejects (e : JsError)
| JsonObject (cid : option string).

Record Response := mkResponse {
  ok : bool;
  body_text : string;
  body_json : JsonResult
}.

Inductive FetchOutcome :=
| NetworkFailure (e : JsError)
| Responds (res : Response).

(** The documents handed to [uploadJSONToIPFS] by the two pages. *)
Inductive Document :=
| ProfileDoc (profile : ProfileFormValues) (certCid portCid picCid : option string)
             (createdAt : string)
| JobDoc (job : JobFormValues) (createdAt : string) (attachmentsCid : option string).

Inductive Body :=
| FormData (entries : list (string * File * string))
| JsonText (data : Document).

Record Request := mkRequest {
  req_url : string;
  req_method : string;
  req_bearer : string;
  req_body : Body
}.

Record CidUrl := mkCidUrl { cid_of : option string; url_of : string }.

Inductive ApiCall :=
| UploadFiles (files : list File)
| UploadJSON (data : Document).

Inductive Event :=
| EnvRead
| Fetch (req : Request)
| Invoked (c : ApiCall)
| Returned (c : ApiCall) (r : CidUrl)
| Raised (c : ApiCall) (e : JsError)
| SetAttErr (m : option string)
| SetIpfsUrl (u : string)
| SetIsSuccess (b : bool)
| SetLastJob (j : JobFormValues)
| StorageRemove (key : string)
| StorageSetProfile (key : string) (data : ProfileFormValues) (ipfs : string)
| FormReset
| Alert (msg : string).

Record Env := mkEnv {
  env_token : option string;      (* process.env.NEXT_PUBLIC_WEB3_STORAGE_TOKEN *)
  net : nat -> FetchOutcome;      (* answer to the n-th network attempt *)
  clock : string                  (* new Date().toISOString() *)
}.

Record State := mkState {
  fetches : nat;
  trace : list Event
}.

Definition init : State := mkState 0 [].

Inductive Result (A : Type) :=
| Ok (a : A)
| Throw (e : JsError).
Arguments Ok {A} a.
Arguments Throw {A} e.

(** Computations of the pages: they read the world, extend the trace, and
    return or throw. *)
Definition M (A : Type) : Type := Env -> State -> Result A * State.

Definition ret {A} (a : A) : M A := fun _ st => (Ok a, st).

Definition bind {A B} (m : M A) (k : A -> M B) : M B :=
  fun env st =>
    match m env st with
    | (Ok a, st') => k a env st'
    | (Throw e, st') => (Throw e, st')
    end.

Definition throw {A} (e : JsError) : M A := fun _ st => (Throw e, st).

Definition tryCatch (m : M unit) (h : JsError -> M unit) : M unit :=
  fun env st =>
    match m env st with
    | (Ok a, st') => (Ok a, st')
    | (Throw e, st') => h e env st'
    end.

Definition emit (ev : Event) : M unit :=
  fun _ st => (Ok tt, mkState (fetches st) (trace st ++ [ev])).

Declare Scope js_scope.
Delimit Scope js_scope with js.
Notation "x <- m ;; k" := (bind m (fun x => k))
  (at level 61, m at next level, right associativity) : js_scope.
Notation "m ;; k" := (bind m (fun _ => k))
  (at level 61, right associativity) : js_scope.

(** A run from the start of an event handler. *)
Definition exec {A} (m : M A) (env : Env) : Result A * State := m env init.

Definition events {A} (m : M A) (env : Env) : list Event :=
  trace (snd (exec m env)).

(** [new Date().toISOString()] *)
Definition now : M string := fun env st => (Ok (clock env), st).

(** Observations on a trace. *)
Definition isFetch (ev : Event) : bool :=
  match ev with Fetch _ => true | _ => false end.

Definition isEnvRead (ev : Event) : bool :=
  match ev with EnvRead => true | _ => false end.

Definition isUploadCall (ev : Event) : bool :=
  match ev with Invoked _ => true | _ => false end.

Definition isDocumentCall (ev : Event) : bool :=
  match ev with Invoked (UploadJSON _) => true | _ => false end.

(** Number of network attempts ([fetch]) in a trace. *)
Definition fetchCalls (t : list Event) : nat := List.length (filter isFetch t).

(** Number of calls of [uploadFilesToIPFS] and [uploadJSONToIPFS]. *)
Definition uploadCalls (t : list Event) : nat :=
  List.length (filter isUploadCall t).

(** Number of calls of [uploadJSONToIPFS]. *)
Definition documentCalls (t : list Event) : nat :=
  List.length (filter isDocumentCall t).

(** Number of lookups of the token in [process.env]. *)
Definition envReads (t : list Event) : nat := List.length (filter isEnvRead t).

(** The component state [attErr] after a trace: [useState(null)], then the
    last value given to [setAttErr]. *)
Definition attErr (t : list Event) : option string :=
  fold_left (fun cur ev => match ev with SetAttErr m => m | _ => cur end) t None.

(** ** The IPFS client *)

Module Ipfs.

Local Open Scope js_scope.

(** Entry to and exit from an exported function are recorded, so that a
    trace tells which uploads were attempted and how each one ended. *)
Definition recorded (c : ApiCall) (m : M CidUrl) : M CidUrl :=
  fun env st =>
    match m env (mkState (fetches st) (trace st ++ [Invoked c])) with
    | (Ok r, st') => (Ok r, mkState (fetches st') (trace st' ++ [Returned c r]))
    | (Throw e, st') => (Throw e, mkState (fetches st') (trace st' ++ [Raised c e]))
    end.

(** [process.env.NEXT_PUBLIC_WEB3_STORAGE_TOKEN] *)
Definition readToken : M (option string) :=
  fun env st => (Ok (env_token env), mkState (fetches st) (trace st ++ [EnvRead])).

(** [!token]: [undefined] and the empty string are falsy. *)
Definition missing (token : option string) : bool :=
  match token with
  | None => true
  | Some t => String.eqb t EmptyString
  end.

Definition bearer (token : option string) : string :=
  match token with Some t => t | None => "undefined"%string end.

(** [fetch(...)]: one network attempt. *)
Definition fetch (req : Request) : M Response :=
  fun env st =>
    let st' := mkState (S (fetches st)) (trace st ++ [Fetch req]) in
    match net env (fetches st) with
    | NetworkFailure e => (Throw e, st')
    | Responds res => (Ok res, st')
    end.

Definition json (res : Response) : M (option string) :=
  match body_json res with
  | JsonRejects e => throw e
  | JsonObject c => ret c
  end.

(** The template literal [`https://w3s.link/ipfs/${cid}`]. *)
Definition gatewayUrl (c : option string) : string :=
  ("https://w3s.link/ipfs/" ++ match c with Some s => s | None => "undefined" end)%string.

Definition missingToken : JsError :=
  mkError "Missing Web3.Storage token. Set NEXT_PUBLIC_WEB3_STORAGE_TOKEN.".

Definition uploadJSONToIPFS (data : Document) : M CidUrl :=
  recorded (UploadJSON data)
    (token <- readToken ;;
     if missing token then throw missingToken
     else
       res <- fetch (mkRequest "https://api.web3.storage/upload" "POST"
                       (bearer token) (JsonText data)) ;;
       if negb (ok res)
       then throw (mkError ("IPFS upload failed: " ++ body_text res))
       else
         c <- json res ;;
         ret (mkCidUrl c (gatewayUrl c))).

Definition uploadFilesToIPFS (files : list File) : M CidUrl :=
  recorded (UploadFiles files)
    (token <- readToken ;;
     if missing token then throw missingToken
     else
       let form := map (fun file => ("file"%string, file, file_name file)) files in
       res <- fetch (mkRequest "https://api.web3.storage/upload" "POST"
                       (bearer token) (FormData form)) ;;
       if negb (ok res)
       then throw (mkError ("IPFS upload failed: " ++ body_text res))
       else
         c <- json res ;;
         ret (mkCidUrl c (gatewayUrl c))).

End Ipfs.

(** ** The profile page *)

Module ProfilePage.

Local Open Scope js_scope.

(** [(field as FileList) || ({} as FileList)] read through
    [list?.length || 0] and [item(i)]: an absent field has no items. *)
Definition fileList (field : FileListField) : list File :=
  match field with Some l => l | None => [] end.

Definition checkSize (f : File) (maxMB : Z) : bool :=
  file_size f <=? maxMB * 1024 * 1024.

(** One [for] loop of [onSubmit]: every item is checked and pushed; the
    first item over the limit ends the loop with no result. *)
Fixpoint pushChecked (maxMB : Z) (items acc : list File) : option (list File) :=
  match items with
  | [] => Some acc
  | f :: rest =>
      if negb (checkSize f maxMB) then None
      else pushChecked maxMB rest (acc ++ [f])
  end.

(** [if (picList?.length) { ... item(0) ... }] *)
Definition pushFirst (maxMB : Z) (items : list File) : option (list File) :=
  match items with
  | [] => Some []
  | f :: _ => if negb (checkSize f maxMB) then None else Some [f]
  end.

(** The part of [onSubmit] before [try]: the message given to [setAttErr]
    when it returns early, or the three arrays [certFiles], [pfFiles],
    [profilePic]. *)
Definition collect (data : ProfileFormValues)
  : string + (list File * list File * list File) :=
  let certList := fileList (certifications data) in
  let pList := fileList (portfolioFiles data) in
  let picList := fileList (profilePicture data) in
  match pushChecked 5 certList [] with
  | None => inl "Certification exceeds 5MB"%string
  | Some certFiles =>
      match pushChecked 5 pList [] with
      | None => inl "Portfolio file exceeds 5MB"%string
      | Some pfFiles =>
          match pushFirst 5 picList with
          | None => inl "Profile picture exceeds 5MB"%string
          | Some profilePic => inr (certFiles, pfFiles, profilePic)
          end
      end
  end.

(** [files.length ? await uploadFilesToIPFS(batch) : null] *)
Definition uploadIfAny (files batch : list File) : M (option CidUrl) :=
  match files with
  | [] => ret None
  | _ :: _ => r <- Ipfs.uploadFilesToIPFS batch ;; ret (Some r)
  end.

(** [x?.cid ?? null] *)
Definition cidOrNull (x : option CidUrl) : option string :=
  match x with Some r => cid_of r | None => None end.

Definition onSubmit (data : ProfileFormValues) : M unit :=
  emit (SetAttErr None) ;;
  match collect data with
  | inl msg => emit (SetAttErr (Some msg))
  | inr (certFiles, pfFiles, profilePic) =>
      tryCatch
        (certCid <- uploadIfAny certFiles certFiles ;;
         portCid <- uploadIfAny pfFiles (JS.slice0 10 pfFiles) ;;
         picCid <- uploadIfAny profilePic profilePic ;;
         createdAt <- now ;;
         json <- Ipfs.uploadJSONToIPFS
                   (ProfileDoc data (cidOrNull certCid) (cidOrNull portCid)
                      (cidOrNull picCid) createdAt) ;;
         emit (SetIpfsUrl (url_of json)) ;;
         emit (SetIsSuccess true) ;;
         emit (StorageRemove "profile_draft") ;;
         emit (StorageSetProfile "profile_published" data (url_of json)))
        (fun e => emit (Alert (JS.strOr (message e) "Failed to publish profile")))
  end.

End ProfilePage.

(** ** The job page *)

Module PostJobPage.

Local Open Scope js_scope.

Definition fileList (field : FileListField) : list File :=
  match field with Some l => l | None => [] end.

(** The [for] loop of [onSubmit]: the first item over 10MB ends it. *)
Fixpoint pushChecked (items acc : list File) : option (list File) :=
  match items with
  | [] => Some acc
  | f :: rest =>
      if file_size f >? 10 * 1024 * 1024 then None
      else pushChecked rest (acc ++ [f])
  end.

Definition onSubmit (data : JobFormValues) : M unit :=
  emit (SetAttErr None) ;;
  let input := fileList (job_attachments data) in
  match pushChecked input [] with
  | None => emit (SetAttErr (Some "Attachment exceeds 10MB limit"%string))
  | Some files =>
      tryCatch
        (createdAt <- now ;;
         uploaded <- match files with
                     | [] => ret None
                     | _ :: _ => r <- Ipfs.uploadFilesToIPFS files ;; ret (Some r)
                     end ;;
         json <- Ipfs.uploadJSONToIPFS
                   (JobDoc data createdAt (ProfilePage.cidOrNull uploaded)) ;;
         emit (SetIpfsUrl (url_of json)) ;;
         emit (SetLastJob data) ;;
         emit (SetIsSuccess true) ;;
         emit (StorageRemove "post_job_draft") ;;
         emit FormReset)
        (fun e => emit (Alert (JS.strOr (message e) "Failed to publish job")))
  end.

End PostJobPage.

(** ** Either page's submission *)

Inductive Submission :=
| SubmitProfile (data : ProfileFormValues)
| SubmitJob (data : JobFormValues).

(** The handler that [handleSubmit] runs for a submission. *)
Definition publish (s : Submission) : M unit :=
  match s with
  | SubmitProfile data => ProfilePage.onSubmit data
  | SubmitJob data => PostJobPage.onSubmit data
  end.

(** The text of the [alert] when the caught value has no message. *)
Definition fallbackMessage (s : Submission) : string :=
  match s with
  | SubmitProfile _ => "Failed to publish profile"
  | SubmitJob _ => "Failed to publish job"
  end.

(** The size limit of a page, in bytes: 5MB on the profile page, 10MB on
    the job page. *)
Definition maxBytes (s : Submission) : Z :=
  match s with
  | SubmitProfile _ => 5 * 1024 * 1024
  | SubmitJob _ => 10 * 1024 * 1024
  end.

(** The files whose size a handler looks at: every certification, every
    portfolio file and the first profile picture; every job attachment. *)
Definition examined (s : Submission) : list File :=
  match s with
  | SubmitProfile data =>
      ProfilePage.fileList (certifications data)
      ++ ProfilePage.fileList (portfolioFiles data)
      ++ firstn 1 (ProfilePage.fileList (profilePicture data))
  | SubmitJob data => PostJobPage.fileList (job_attachments data)
  end.

Definition oversize (s : Submission) : bool :=
  existsb (fun f => maxBytes s <? file_size f) (examined s).

(** The batches a handler passes to [uploadFilesToIPFS] when they are not
    empty. *)
Definition batches (s : Submission) : list (list File) :=
  match s with
  | SubmitProfile data =>
      [ ProfilePage.fileList (certifications data);
        firstn 10 (ProfilePage.fileList (portfolioFiles data));
        firstn 1 (ProfilePage.fileList (profilePicture data)) ]
  | SubmitJob data => [ PostJobPage.fileList (job_attachments data) ]
  end.

(** A call of one of the two exported functions of the client. *)
Definition call (c : ApiCall) : M CidUrl :=
  match c with
  | UploadFiles files => Ipfs.uploadFilesToIPFS files
  | UploadJSON data => Ipfs.uploadJSONToIPFS data
  end.

(** The three ways a call of the client can go: it returns after one
    network attempt; it throws for the missing token before any attempt; it
    throws after its one attempt. *)
Inductive UploadRun (c : ApiCall) (st : State) : Result CidUrl * State -> Prop :=
| RunReturned (r : CidUrl) (req : Request) :
    UploadRun c st
      (Ok r, mkState (S (fetches st))
               (trace st ++ [Invoked c; EnvRead; Fetch req; Returned c r]))
| RunNoToken :
    UploadRun c st
      (Throw Ipfs.missingToken,
       mkState (fetches st)
         (trace st ++ [Invoked c; EnvRead; Raised c Ipfs.missingToken]))
| RunFailed (e : JsError) (req : Request) :
    UploadRun c st
      (Throw e, mkState (S (fetches st))
                  (trace st ++ [Invoked c; EnvRead; Fetch req; Raised c e])).

(** ** Orders used to state the ranking *)

(** The comparator [(a, b) => key(b) - key(a)]. *)
Definition descending {A : Type} (key : A -> Z) : A -> A -> Z :=
  fun a b => key b - key a.

Definition nonIncreasing {A : Type} (key : A -> Z) : A -> A -> Prop :=
  fun a b => key a >= key b.

Definition hasKey {A : Type} (key : A -> Z) (t : Z) : A -> bool :=
  fun a => key a =? t.

(** ** The ordered scale of the specification *)

(** Position on the ordered scale Entry < Mid < Senior < Expert. *)
Definition scale (e : Experience) : Z :=
  match e with Entry => 0 | Mid => 1 | Senior => 2 | Expert => 3 end.

(** ** Sample data *)

(** The three entries of [MOCK_SERVICES]. *)
Definition solidityEngineer : ServiceMock :=
  mkService "Solidity Engineer" "Smart contract development and audits"
    ["Solidity"; "Hardhat"; "Security"]%string Senior 50%float 100%float true.

Definition web3FrontendDev : ServiceMock :=
  mkService "Web3 Frontend Dev" "Next.js + Wagmi dApp UIs"
    ["React"; "Next.js"; "Wagmi"; "Viem"]%string Mid 35%float 70%float true.

Definition defiStrategist : ServiceMock :=
  mkService "DeFi Strategist" "Tokenomics and protocol design"
    ["AI/ML"; "Design"; "Security"]%string Expert 80%float 150%float true.

(** A job that asks for a Senior Solidity engineer, remote, 50 to 100. *)
Definition seniorSolidityJob : JobFormValues :=
  mkJob "Audit our escrow contracts" "Review and harden the escrow contracts."
    "Audits" Senior ["Solidity"; "Security"]%string "50" "100" USD Days "14"
    Contract Remote None "2026-01-31" WalletDM None.

(** The same job with no required skill (the form's default value). *)
Definition noSkillJob : JobFormValues :=
  mkJob "Audit our escrow contracts" "Review and harden the escrow contracts."
    "Audits" Senior [] "50" "100" USD Days "14"
    Contract Remote None "2026-01-31" WalletDM None.

(** A stand-in for [parseFloat] in the examples, whose amounts are whole
    numbers: it agrees with [parseFloat] on the strings of decimal digits
    that denote an integer below 2^53, and takes every other string to
    [NaN], which [parseFloat] does not.  No theorem depends on it: they hold
    for every [parseFloat]. *)
Definition digit (c : ascii) : option float :=
  match c with
  | "0"%char => Some 0%float | "1"%char => Some 1%float
  | "2"%char => Some 2%float | "3"%char => Some 3%float
  | "4"%char => Some 4%float | "5"%char => Some 5%float
  | "6"%char => Some 6%float | "7"%char => Some 7%float
  | "8"%char => Some 8%float | "9"%char => Some 9%float
  | _ => None
  end.

Fixpoint digitsFrom (acc : float) (s : string) : float :=
  match s with
  | EmptyString => acc
  | String c r =>
      match digit c with
      | Some d => digitsFrom (acc * 10 + d)%float r
      | None => nan
      end
  end.

Definition parseWhole (s : string) : float :=
  match s with
  | EmptyString => nan
  | _ => digitsFrom 0%float s
  end.

(** A storage service that accepts every upload. *)
Definition accepting : nat -> FetchOutcome :=
  fun _ => Responds (mkResponse true EmptyString (JsonObject (Some "bafy"%string))).

(** A storage service that refuses the first upload and accepts the rest. *)
Definition refusingFirst : nat -> FetchOutcome :=
  fun n =>
    match n with
    | O => Responds (mkResponse false "quota exceeded" (JsonRejects (mkError EmptyString)))
    | S _ => accepting n
    end.

Definition envReady : Env :=
  mkEnv (Some "secret"%string) accepting "2026-01-01T00:00:00.000Z".

Definition envNoToken : Env :=
  mkEnv None accepting "2026-01-01T00:00:00.000Z".

Definition envRefusingFirst : Env :=
  mkEnv (Some "secret"%string) refusingFirst "2026-01-01T00:00:00.000Z".

(** A profile with the given files in its three file fields. *)
Definition profileWith (certs pfs pics : list File) : ProfileFormValues :=
  mkProfile "Ada" "ada@example.org" "5550100" "+44"
    "Smart contract engineer with ten years of audits behind her."
    "Auditor" None "10" "80" USD Available
    ["Solidity"; "Security"; "Testing"]%string ["English"]%string
    (Some certs) [] (Some pfs) (Some pics) Public.

(** The job of the examples with the given attachments. *)
Definition jobWith (files : list File) : JobFormValues :=
  mkJob "Audit our escrow contracts" "Review and harden the escrow contracts."
    "Audits" Senior ["Solidity"; "Security"]%string "50" "100" USD Days "14"
    Contract Remote None "2026-01-31" WalletDM (Some files).

Definition MB : Z := 1024 * 1024.

Definition diploma : File := mkFile "diploma.pdf" 2048.

(** Eleven small portfolio files. *)
Definition elevenShots : list File :=
  [ mkFile "shot01.png" 1024; mkFile "shot02.png" 1024; mkFile "shot03.png" 1024;
    mkFile "shot04.png" 1024; mkFile "shot05.png" 1024; mkFile "shot06.png" 1024;
    mkFile "shot07.png" 1024; mkFile "shot08.png" 1024; mkFile "shot09.png" 1024;
    mkFile "shot10.png" 1024; mkFile "shot11.png" 1024 ].

(** A service of the same standing as "DeFi Strategist". *)
Definition protocolAdvisor : ServiceMock :=
  mkService "Protocol Advisor" "Governance and treasury design"
    ["Design"]%string Expert 80%float 150%float true.

(** ** One call of the client, in closed form *)

(** The body a call sends. *)
Definition bodyOf (c : ApiCall) : Body :=
  match c with
  | UploadFiles files =>
      FormData (map (fun file => ("file"%string, file, file_name file)) files)
  | UploadJSON data => JsonText data
  end.

(** The request a call sends in a given environment. *)
Definition requestOf (env : Env) (c : ApiCall) : Request :=
  mkRequest "https://api.web3.storage/upload" "POST"
    (Ipfs.bearer (env_token env)) (bodyOf c).

(** What the client makes of the answer to the n-th network attempt: the
    [cid] of the parsed body, or the value it throws. *)
Definition answer (env : Env) (n : nat) : Result (option string) :=
  match net env n with
  | NetworkFailure e => Throw e
  | Responds res =>
      if ok res then
        match body_json res with
        | JsonRejects e => Throw e
        | JsonObject c => Ok c
        end
      else Throw (mkError ("IPFS upload failed: " ++ body_text res))
  end.

(** The outcome of a call and the state it leaves, by cases on the token
    and on the answer. *)
Definition attempt (env : Env) (c : ApiCall) (st : State) : Result CidUrl * State :=
  if Ipfs.missing (env_token env) then
    (Throw Ipfs.missingToken,
     mkState (fetches st)
       (trace st ++ [Invoked c; EnvRead; Raised c Ipfs.missingToken]))
  else
    match answer env (fetches st) with
    | Ok cid =>
        (Ok (mkCidUrl cid (Ipfs.gatewayUrl cid)),
         mkState (S (fetches st))
           (trace st ++ [Invoked c; EnvRead; Fetch (requestOf env c);
                         Returned c (mkCidUrl cid (Ipfs.gatewayUrl cid))]))
    | Throw e =>
        (Throw e,
         mkState (S (fetches st))
           (trace st ++ [Invoked c; EnvRead; Fetch (requestOf env c); Raised c e]))
    end.

(** The calls of the client in a trace, in order. *)
Fixpoint invocations (t : list Event) : list ApiCall :=
  match t with
  | [] => []
  | Invoked c :: r => c :: invocations r
  | _ :: r => invocations r
  end.

Definition isEmpty {A : Type} (l : list A) : bool :=
  match l with [] => true | _ :: _ => false end.

(** The batches of a submission that hold a file, as calls, in the order of
    the handler. *)
Definition batchCalls (s : Submission) : list ApiCall :=
  map UploadFiles (filter (fun b => negb (isEmpty b)) (batches s)).

(** The key of the draft in [localStorage]. *)
Definition draftKey (s : Submission) : string :=
  match s with
  | SubmitProfile _ => "profile_draft"
  | SubmitJob _ => "post_job_draft"
  end.

(** The [cid] a document records for a batch: [null] for an empty batch,
    else the [cid] the upload of the batch returned. *)
Definition recordsCid (t : list Event) (batch : list File) (c : option string) : Prop :=
  match batch with
  | [] => c = None
  | _ :: _ => exists r, In (Returned (UploadFiles batch) r) t /\ c = cid_of r
  end.

(** ** What the job page shows after a run *)




(** ** The schema of the job form

    [jobSchema] as a check on a [JobFormValues]: the issues it reports, each
    with the name of its field and its message, in the order of the fields.
    The fields of an enumerated type and the optional ones raise no issue.
    A character of a string stands for one UTF-16 code unit, so that the
    length of a string is its [length]. *)

(** [\d] *)
Definition isDigit (c : ascii) : bool :=
  ((48 <=? nat_of_ascii c) && (nat_of_ascii c <=? 57))%nat.

Fixpoint allDigits (s : string) : bool :=
  match s with
  | EmptyString => true
  | String c r => isDigit c && allDigits r
  end.

(** The part of a string after its leading digits. *)
Fixpoint afterDigits (s : string) : string :=
  match s with
  | EmptyString => EmptyString
  | String c r => if isDigit c then afterDigits r else s
  end.

(** The regular expression [/^\d+(\.\d{1,18})?$/]. *)
Definition isAmount (s : string) : bool :=
  match s with
  | EmptyString => false
  | String c _ =>
      isDigit c
      && match afterDigits s with
         | EmptyString => true
         | String d f =>
             Ascii.eqb d "."
             && allDigits f
             && ((1 <=? String.length f) && (String.length f <=? 18))%nat
         end
  end.

(** [z.string().min(n, message)] on a field. *)
Definition minLength (field : string) (n : nat) (msg : string) (s : string)
  : list (string * string) :=
  if (String.length s <? n)%nat then [(field, msg)] else [].

(** [z.string().regex(/^\d+(\.\d{1,18})?$/, message)] on a field. *)
Definition amount (field : string) (msg : string) (s : string)
  : list (string * string) :=
  if isAmount s then [] else [(field, msg)].

Definition jobSchema (j : JobFormValues) : list (string * string) :=
  minLength "title" 3 "Job title is required" (job_title j)
  ++ minLength "description" 100 "Description must be at least 100 characters"
       (job_description j)
  ++ minLength "category" 1 "Select a category" (job_category j)
  ++ (if (List.length (job_skills j) <? 1)%nat
      then [("skills", "Select at least one skill")]%string else [])
  ++ amount "budgetMin" "Invalid amount" (job_budgetMin j)
  ++ amount "budgetMax" "Invalid amount" (job_budgetMax j)
  ++ minLength "durationValue" 1 "Provide duration" (job_durationValue j)
  ++ minLength "deadline" 1 "Deadline is required" (job_deadline j).

(** A job that passes the schema. *)
Definition validJob : JobFormValues :=
  mkJob "Audit our escrow contracts"
    "Review the escrow contracts, report every finding with a severity, and propose a fix for each one found."
    "Audits" Senior ["Solidity"; "Security"]%string "50" "100.5" USD Days "14"
    Contract Remote None "2026-01-31" WalletDM None.

(** ** The skill formula of the specification

    The specification speaks of skill sets.  The definitions below follow
    its words on the two arrays read as sets, to be compared with what
    [computeMatch] computes on the arrays themselves. *)







(** ** Acceptance by the size checks *)

(** Whether a handler gets past its size checks, that is, reaches [try]. *)
Definition accepted (s : Submission) : bool :=
  match s with
  | SubmitProfile data =>
      match ProfilePage.collect data with
      | inl _ => false
      | inr _ => true
      end
  | SubmitJob data =>
      match PostJobPage.pushChecked
              (PostJobPage.fileList (job_attachments data)) [] with
      | Some _ => true
      | None => false
      end
  end.

(** A storage service that accepts the first upload and refuses the
    second. *)
Definition refusingSecond : nat -> FetchOutcome :=
  fun n =>
    match n with
    | 1%nat => Responds (mkResponse false "quota exceeded"
                           (JsonRejects (mkError EmptyString)))
    | _ => accepting n
    end.

Definition envRefusingSecond : Env :=
  mkEnv (Some "secret"%string) refusingSecond "2026-01-01T00:00:00.000Z".

(** * Properties *)

(** ** Rounding *)

Lemma Math_round_ratio (k : Z) (p : positive) :
  JS.Math_round ((inject_Z k / inject_Z (Zpos p)) * 60)
  = (120 * k + Zpos p) / (2 * Zpos p).
Proof.
  unfold JS.Math_round.
  assert (E : ((inject_Z k / inject_Z (Zpos p)) * 60 + (1 # 2)
               == (120 * k + Zpos p) # (2 * p))%Q).
  { unfold Qeq, Qdiv, Qmult, Qplus, Qinv, inject_Z. cbn [Qnum Qden].
    rewrite ?Pos2Z.inj_mul. lia. }
  rewrite E. reflexivity.
Qed.

Lemma Math_round_nearest (k n : Z) :
  1 <= n ->
  let r := JS.Math_round ((inject_Z k / inject_Z n) * 60) in
  2 * n * r - n <= 120 * k < 2 * n * r + n.
Proof.
  intros Hn r. subst r.
  destruct n as [|p|p]; try lia.
  rewrite Math_round_ratio.
  pose proof (Z.div_mod (120 * k + Z.pos p) (2 * Z.pos p) ltac:(lia)) as D.
  pose proof (Z.mod_pos_bound (120 * k + Z.pos p) (2 * Z.pos p) ltac:(lia)) as B.
  lia.
Qed.

(** The exact reading of the skill component is what the doubles give, for
    every number of required skills up to 64 (the form allows 16). *)
Lemma skillScore_exact_reading (job : JobFormValues) (service : ServiceMock) :
  skillScore job service
  = skillScoreExact (skillOverlap job service)
      (Z.of_nat (List.length (job_skills job))).
Proof. reflexivity. Qed.

Lemma double_rounding_agrees (n k : nat) :
  (n <= 64)%nat -> (k <= n)%nat ->
  PrimFloat.eqb (skillScoreDouble (Z.of_nat k) (Z.of_nat n))
                (doubleOfZ (skillScoreExact (Z.of_nat k) (Z.of_nat n))) = true.
Proof.
  intros Hn Hk.
  assert (A : agreesUpTo 64 = true) by (vm_compute; reflexivity).
  unfold agreesUpTo in A. rewrite forallb_forall in A.
  specialize (A n ltac:(apply in_seq; lia)). cbv beta in A.
  rewrite forallb_forall in A.
  apply (A k). apply in_seq. lia.
Qed.

(** ** The skill component *)

Lemma skillOverlap_bounds (job : JobFormValues) (service : ServiceMock) :
  0 <= skillOverlap job service <= Z.of_nat (List.length (job_skills job)).
Proof.
  unfold skillOverlap.
  pose proof (filter_length_le (fun s => JS.includes (skills service) s)
                (job_skills job)).
  lia.
Qed.

(** The overlap counts the required skills that the service lists. *)
Lemma skillOverlap_members (job : JobFormValues) (service : ServiceMock) (s : string) :
  In s (filter (fun s => JS.includes (skills service) s) (job_skills job))
  <-> In s (job_skills job) /\ In s (skills service).
Proof.
  rewrite filter_In. unfold JS.includes. rewrite existsb_exists.
  split.
  - intros [Hj [x [Hx E]]]. apply String.eqb_eq in E. subst x. now split.
  - intros [Hj Hs]. split; [assumption|].
    exists s. split; [assumption | apply String.eqb_refl].
Qed.

Lemma skill_round_bounds (job : JobFormValues) (service : ServiceMock) :
  0 <= JS.Math_round
         ((inject_Z (skillOverlap job service)
           / inject_Z (Z.max 1 (Z.of_nat (List.length (job_skills job))))) * 60)
    <= 60.
Proof.
  pose proof (skillOverlap_bounds job service) as Hk.
  pose proof (Math_round_nearest (skillOverlap job service)
                (Z.max 1 (Z.of_nat (List.length (job_skills job))))
                ltac:(lia)) as Hr.
  cbv zeta in Hr.
  set (r := JS.Math_round _) in *.
  set (n := Z.max 1 _) in *.
  assert (1 <= n) by lia.
  assert (skillOverlap job service <= n) by lia.
  split; nia.
Qed.

Lemma skillScore_uncapped (job : JobFormValues) (service : ServiceMock) :
  skillScore job service
  = JS.Math_round
      ((inject_Z (skillOverlap job service)
        / inject_Z (Z.max 1 (Z.of_nat (List.length (job_skills job))))) * 60).
Proof.
  unfold skillScore. pose proof (skill_round_bounds job service). lia.
Qed.

Lemma skillScore_bounds (job : JobFormValues) (service : ServiceMock) :
  0 <= skillScore job service <= 60.
Proof.
  rewrite skillScore_uncapped. apply skill_round_bounds.
Qed.

(** ** The experience component *)

Lemma indexOf_LEVELS (e : Experience) :
  JS.indexOf Experience_eqb LEVELS e = scale e.
Proof. destruct e; reflexivity. Qed.

Lemma Experience_eqb_spec (a b : Experience) :
  reflect (a = b) (Experience_eqb a b).
Proof. destruct a, b; constructor; congruence. Qed.

Lemma scale_inj (a b : Experience) : scale a = scale b -> a = b.
Proof. destruct a, b; simpl; congruence. Qed.

Lemma expScore_cases (job : JobFormValues) (service : ServiceMock) :
  expScore job service
  = if Experience_eqb (job_experience job) (experience service) then 20
    else if scale (job_experience job) <? scale (experience service) then 10
         else 5.
Proof.
  unfold expScore. rewrite !indexOf_LEVELS.
  destruct (Experience_eqb_spec (job_experience job) (experience service)) as [E|N].
  - reflexivity.
  - assert (scale (job_experience job) <> scale (experience service))
      by (intro H; apply N, scale_inj, H).
    destruct (Z.leb_spec (scale (job_experience job)) (scale (experience service)));
      destruct (Z.ltb_spec (scale (job_experience job)) (scale (experience service)));
      try reflexivity; lia.
Qed.

Lemma expScore_bounds (job : JobFormValues) (service : ServiceMock) :
  5 <= expScore job service <= 20.
Proof.
  rewrite expScore_cases.
  destruct (Experience_eqb _ _); [lia|].
  destruct (_ <? _); lia.
Qed.

Lemma remoteFit_bounds (job : JobFormValues) (service : ServiceMock) :
  0 <= remoteFit job service <= 5.
Proof.
  unfold remoteFit. destruct (job_locationPref job); try lia.
  destruct (remote service); lia.
Qed.

Section MatchingFacts.
Variable parseFloat : string -> float.

Lemma budgetFit_bounds (job : JobFormValues) (service : ServiceMock) :
  5 <= budgetFit parseFloat job service <= 15.
Proof.
  unfold budgetFit. cbv zeta. destruct (_ && _); lia.
Qed.

Lemma computeMatch_breakdown (job : JobFormValues) (service : ServiceMock) :
  computeMatch parseFloat job service
  = Z.min 100 (skillScore job service + expScore job service
               + budgetFit parseFloat job service + remoteFit job service).
Proof. reflexivity. Qed.

End MatchingFacts.

(** ** Claims on [computeMatch] *)

(** C1, as stated, fails: the service "Web3 Frontend Dev" is Mid, below the
    Senior level that the job requires, and its experience component is 5,
    not 10. *)
Lemma expScore_below_required_is_5 :
  job_experience seniorSolidityJob <> experience web3FrontendDev
  /\ scale (experience web3FrontendDev) <= scale (job_experience seniorSolidityJob)
  /\ expScore seniorSolidityJob web3FrontendDev = 5
  /\ expScore seniorSolidityJob web3FrontendDev <> 10.
Proof. repeat split; vm_compute; congruence. Qed.

(** C1 (amended): when the two experience levels differ, the experience
    component is 10 if the candidate's level is above the required level on
    the scale Entry < Mid < Senior < Expert, and 5 if it is below. *)
Theorem expScore_levels_differ (job : JobFormValues) (service : ServiceMock) :
  job_experience job <> experience service ->
  expScore job service
  = if scale (job_experience job) <? scale (experience service) then 10 else 5.
Proof.
  intros N. rewrite expScore_cases.
  destruct (Experience_eqb_spec (job_experience job) (experience service));
    [contradiction | reflexivity].
Qed.

Lemma expScore_levels_differ_witness :
  job_experience seniorSolidityJob <> experience defiStrategist
  /\ expScore seniorSolidityJob defiStrategist = 10.
Proof.
  assert (N : job_experience seniorSolidityJob <> experience defiStrategist)
    by (simpl; discriminate).
  split; [exact N|].
  rewrite (expScore_levels_differ seniorSolidityJob defiStrategist N).
  reflexivity.
Defined.

(** ** The skill component against the formula on sets *)








Section MatchTotal.
Variable parseFloat : string -> float.

(** C7: the total is [min(100, skill + experience + budget + remote)] and
    lies in [0, 100], whatever the two skill lists are. *)
Theorem computeMatch_total (job : JobFormValues) (service : ServiceMock) :
  computeMatch parseFloat job service
  = Z.min 100 (skillScore job service + expScore job service
               + budgetFit parseFloat job service + remoteFit job service)
  /\ 0 <= computeMatch parseFloat job service <= 100.
Proof.
  split; [reflexivity|].
  rewrite computeMatch_breakdown.
  pose proof (skillScore_bounds job service).
  pose proof (expScore_bounds job service).
  pose proof (budgetFit_bounds parseFloat job service).
  pose proof (remoteFit_bounds job service).
  lia.
Qed.

(** C10: the total is at least 10, since the experience component and the
    budget component are each at least 5. *)
Theorem computeMatch_at_least_10 (job : JobFormValues) (service : ServiceMock) :
  5 <= expScore job service
  /\ 5 <= budgetFit parseFloat job service
  /\ 10 <= computeMatch parseFloat job service.
Proof.
  pose proof (skillScore_bounds job service).
  pose proof (expScore_bounds job service).
  pose proof (budgetFit_bounds parseFloat job service).
  pose proof (remoteFit_bounds job service).
  rewrite computeMatch_breakdown. lia.
Qed.

End MatchTotal.

Lemma MOCK_SERVICES_entries :
  MOCK_SERVICES = [solidityEngineer; web3FrontendDev; defiStrategist].
Proof. reflexivity. Qed.

(** The two end-to-end examples of the specification. *)
Example computeMatch_full_fit :
  computeMatch parseWhole seniorSolidityJob
    (mkService "A" "B" ["Solidity"; "Security"; "Rust"]%string Senior
       50%float 100%float true) = 100.
Proof. vm_compute. reflexivity. Qed.

Example computeMatch_no_fit :
  computeMatch parseWhole seniorSolidityJob
    (mkService "A" "B" ["Design"]%string Mid 10%float 200%float false) = 10.
Proof. vm_compute. reflexivity. Qed.

(** ** Sorting by descending key *)

Section SortDescending.
Context {A : Type} (key : A -> Z).


Lemma insert_In (x y : A) (l : list A) :
  In y (JS.insert (descending key) x l) <-> y = x \/ In y l.
Proof.
  induction l as [|z r IH]; simpl.
  - intuition.
  - destruct (descending key z x <? 0); simpl; rewrite ?IH; intuition.
Qed.

Lemma insert_sorted (x : A) (l : list A) :
  StronglySorted (nonIncreasing key) l ->
  StronglySorted (nonIncreasing key) (JS.insert (descending key) x l).
Proof.
  induction 1 as [|z r Hr IH Hz]; simpl.
  - repeat constructor.
  - destruct (Z.ltb_spec (descending key z x) 0) as [Hlt|Hge].
    + constructor; [exact IH|].
      apply Forall_forall. intros y Hy. apply insert_In in Hy.
      destruct Hy as [->|Hy].
      * unfold nonIncreasing, descending in *. lia.
      * rewrite Forall_forall in Hz. now apply Hz.
    + constructor; [now constructor|].
      constructor.
      * unfold nonIncreasing, descending in *. lia.
      * rewrite Forall_forall in Hz |- *. intros y Hy.
        specialize (Hz y Hy). unfold nonIncreasing, descending in *. lia.
Qed.

Lemma sort_sorted (l : list A) :
  StronglySorted (nonIncreasing key) (JS.sort (descending key) l).
Proof.
  induction l; simpl; [constructor | now apply insert_sorted].
Qed.

(** Insertion keeps the new element in front of the elements of equal key. *)
Lemma filter_insert (t : Z) (x : A) (l : list A) :
  filter (hasKey key t) (JS.insert (descending key) x l)
  = filter (hasKey key t) (x :: l).
Proof.
  induction l as [|z r IH]; [reflexivity|].
  simpl.
  destruct (Z.ltb_spec (descending key z x) 0) as [Hlt|Hge]; [|reflexivity].
  simpl. rewrite IH. simpl. unfold hasKey, descending in *.
  destruct (Z.eqb_spec (key x) t); destruct (Z.eqb_spec (key z) t);
    try reflexivity; lia.
Qed.

(** Stability: among the elements of one key, the input order is kept. *)
Lemma filter_sort (t : Z) (l : list A) :
  filter (hasKey key t) (JS.sort (descending key) l) = filter (hasKey key t) l.
Proof.
  induction l as [|x r IH]; [reflexivity|].
  simpl JS.sort. rewrite filter_insert. simpl. now rewrite IH.
Qed.

Lemma sort_length (l : list A) :
  List.length (JS.sort (descending key) l) = List.length l.
Proof.
  induction l as [|x r IH]; [reflexivity|].
  simpl. rewrite <- IH. generalize (JS.sort (descending key) r). intros s.
  induction s as [|z s IHs]; [reflexivity|].
  simpl.
  destruct (descending key z x <? 0); simpl; [now rewrite IHs | reflexivity].
Qed.

Lemma sort_In (y : A) (l : list A) :
  In y (JS.sort (descending key) l) <-> In y l.
Proof.
  induction l as [|x r IH]; simpl; [tauto|].
  rewrite insert_In, IH. intuition.
Qed.

Lemma has_key (x : A) : hasKey key (key x) x = true.
Proof. unfold hasKey. apply Z.eqb_refl. Qed.

(** The model does not depend on the sorting algorithm: a list in
    descending order is determined by its elements of each key, taken in
    order. *)
Lemma sorted_stable_unique (l1 l2 : list A) :
  StronglySorted (nonIncreasing key) l1 ->
  StronglySorted (nonIncreasing key) l2 ->
  (forall t, filter (hasKey key t) l1 = filter (hasKey key t) l2) ->
  l1 = l2.
Proof.
  intros S1. revert l2.
  induction S1 as [|x r1 Hr1 IH Hx]; intros l2 S2 E.
  - destruct l2 as [|y r2]; [reflexivity|].
    specialize (E (key y)). simpl in E. rewrite has_key in E. discriminate.
  - destruct S2 as [|y r2 Hr2 Hy].
    + specialize (E (key x)). simpl in E. rewrite has_key in E. discriminate.
    + assert (Hxy : key x = key y).
      { assert (In x (filter (hasKey key (key x)) (y :: r2))) as Ix.
        { rewrite <- E. simpl. rewrite has_key. now left. }
        assert (In y (filter (hasKey key (key y)) (x :: r1))) as Iy.
        { rewrite E. simpl. rewrite has_key. now left. }
        apply filter_In in Ix. destruct Ix as [Ix _].
        apply filter_In in Iy. destruct Iy as [Iy _].
        rewrite Forall_forall in Hx, Hy.
        assert (key y >= key x).
        { destruct Ix as [->|Ix]; [lia | apply (Hy x Ix)]. }
        assert (key x >= key y).
        { destruct Iy as [->|Iy]; [lia | apply (Hx y Iy)]. }
        lia. }
      assert (x = y).
      { specialize (E (key x)). simpl in E. rewrite has_key in E.
        rewrite Hxy in E. rewrite has_key in E. congruence. }
      subst y. f_equal. apply IH; [assumption|].
      intros t. specialize (E t). simpl in E.
      destruct (hasKey key t x); congruence.
Qed.

(** Every stable arrangement in descending order is the one [sort] gives. *)
Corollary sort_is_the_stable_sort (l s : list A) :
  StronglySorted (nonIncreasing key) s ->
  (forall t, filter (hasKey key t) s = filter (hasKey key t) l) ->
  s = JS.sort (descending key) l.
Proof.
  intros Hs Hst. apply sorted_stable_unique; [assumption | apply sort_sorted |].
  intros t. now rewrite filter_sort.
Qed.

End SortDescending.

Lemma firstn_sorted {A : Type} (R : A -> A -> Prop) (n : nat) (l : list A) :
  StronglySorted R l -> StronglySorted R (firstn n l).
Proof.
  intros S. revert n. induction S as [|x r Hr IH Hx]; intros [|n]; simpl;
    try constructor.
  - apply IH.
  - rewrite Forall_forall in Hx |- *. intros y Hy. apply Hx.
    rewrite <- (firstn_skipn n r). apply in_or_app. now left.
Qed.

Lemma filter_firstn_skipn {A : Type} (p : A -> bool) (n : nat) (l : list A) :
  filter p l = filter p (firstn n l) ++ filter p (skipn n l).
Proof. now rewrite <- filter_app, firstn_skipn. Qed.

(** ** Ranking *)

Section Ranking.
Variable parseFloat : string -> float.

(** C6: the matches come in non-increasing order of score; the matches of
    one score keep the order they have in the catalogue (they are the first
    of them, in that order); and at most 3 matches are returned. *)
Theorem topMatches_ranked (services : list ServiceMock) (job : JobFormValues) :
  let input := map (fun s => mkScored s (computeMatch parseFloat job s)) services in
  let out := topMatchesOf parseFloat services job in
  StronglySorted (fun a b => score a >= score b) out
  /\ (forall t, exists rest,
         filter (fun a => score a =? t) input
         = filter (fun a => score a =? t) out ++ rest)
  /\ (List.length out <= 3)%nat
  /\ (forall a, In a out -> In a input)
  /\ getTopMatches parseFloat job = topMatchesOf parseFloat MOCK_SERVICES job.
Proof.
  intros input out. subst out. unfold topMatchesOf, JS.slice0. fold input.
  split; [apply firstn_sorted, (sort_sorted score)|].
  split.
  - intros t.
    exists (filter (fun a => score a =? t)
              (skipn 3 (JS.sort (fun a b => score b - score a) input))).
    rewrite <- filter_firstn_skipn. symmetry. apply (filter_sort score).
  - split; [apply firstn_le_length|].
    split; [|reflexivity].
    intros a Ha. apply (sort_In score).
    rewrite <- (firstn_skipn 3 (JS.sort _ input)). apply in_or_app. now left.
Qed.

End Ranking.

Example getTopMatches_seniorSolidityJob :
  map (fun m => (title (svc m), score m))
    (getTopMatches parseWhole seniorSolidityJob)
  = [ ("Solidity Engineer", 100); ("DeFi Strategist", 50);
      ("Web3 Frontend Dev", 15) ]%string.
Proof. vm_compute. reflexivity. Qed.

(** Two services of equal score keep the order of the catalogue, on either
    side of a better one. *)
Example topMatchesOf_tie :
  map (fun m => (title (svc m), score m))
    (topMatchesOf parseWhole
       [web3FrontendDev; protocolAdvisor; solidityEngineer; defiStrategist]
       noSkillJob)
  = [ ("Solidity Engineer", 40); ("Protocol Advisor", 20);
      ("DeFi Strategist", 20) ]%string
  /\
  map (fun m => (title (svc m), score m))
    (topMatchesOf parseWhole
       [defiStrategist; solidityEngineer; protocolAdvisor; web3FrontendDev]
       noSkillJob)
  = [ ("Solidity Engineer", 40); ("DeFi Strategist", 20);
      ("Protocol Advisor", 20) ]%string.
Proof. vm_compute. split; reflexivity. Qed.

(** ** The IPFS client *)

Ltac norm_trace :=
  cbn [fetches trace negb]; rewrite <- ?app_assoc; cbn [app].

Lemma uploadFiles_run (files : list File) (env : Env) (st : State) :
  UploadRun (UploadFiles files) st (Ipfs.uploadFilesToIPFS files env st).
Proof.
  unfold Ipfs.uploadFilesToIPFS, Ipfs.recorded, bind, Ipfs.readToken, Ipfs.fetch,
    Ipfs.json, throw, ret.
  cbn [fetches trace].
  destruct (Ipfs.missing (env_token env)); [norm_trace; apply RunNoToken|].
  cbn [fetches trace].
  destruct (net env (fetches st)) as [e|res]; [norm_trace; apply RunFailed|].
  destruct (ok res); cbn [negb]; [|norm_trace; apply RunFailed].
  destruct (body_json res); norm_trace; [apply RunFailed | apply RunReturned].
Qed.

Lemma uploadJSON_run (data : Document) (env : Env) (st : State) :
  UploadRun (UploadJSON data) st (Ipfs.uploadJSONToIPFS data env st).
Proof.
  unfold Ipfs.uploadJSONToIPFS, Ipfs.recorded, bind, Ipfs.readToken, Ipfs.fetch,
    Ipfs.json, throw, ret.
  cbn [fetches trace].
  destruct (Ipfs.missing (env_token env)); [norm_trace; apply RunNoToken|].
  cbn [fetches trace].
  destruct (net env (fetches st)) as [e|res]; [norm_trace; apply RunFailed|].
  destruct (ok res); cbn [negb]; [|norm_trace; apply RunFailed].
  destruct (body_json res); norm_trace; [apply RunFailed | apply RunReturned].
Qed.

Lemma call_run (c : ApiCall) (env : Env) (st : State) :
  UploadRun c st (call c env st).
Proof. destruct c; [apply uploadFiles_run | apply uploadJSON_run]. Qed.

Lemma envReads_app (t u : list Event) :
  envReads (t ++ u) = (envReads t + envReads u)%nat.
Proof. unfold envReads. now rewrite filter_app, length_app. Qed.

Lemma call_without_token (c : ApiCall) (env : Env) (st : State) :
  Ipfs.missing (env_token env) = true ->
  call c env st
  = (Throw Ipfs.missingToken,
     mkState (fetches st)
       (trace st ++ [Invoked c; EnvRead; Raised c Ipfs.missingToken])).
Proof.
  intros Hm.
  destruct c; unfold call, Ipfs.uploadFilesToIPFS, Ipfs.uploadJSONToIPFS,
    Ipfs.recorded, bind, Ipfs.readToken, throw;
    cbn [fetches trace]; rewrite Hm; norm_trace; reflexivity.
Qed.

(** C4, as stated, fails: with no token in the environment, two calls in a
    row each look the token up and each throw the error; nothing is
    resolved once and for all before the first call. *)
Lemma missing_token_raised_on_each_call :
  let doc := JobDoc (jobWith []) "2026-01-01T00:00:00.000Z" None in
  let first := Ipfs.uploadJSONToIPFS doc envNoToken init in
  let second := Ipfs.uploadFilesToIPFS [diploma] envNoToken (snd first) in
  fst first = Throw Ipfs.missingToken
  /\ fst second = Throw Ipfs.missingToken
  /\ envReads (trace (snd second)) = 2%nat
  /\ trace (snd second)
     = [ Invoked (UploadJSON doc); EnvRead; Raised (UploadJSON doc) Ipfs.missingToken;
         Invoked (UploadFiles [diploma]); EnvRead;
         Raised (UploadFiles [diploma]) Ipfs.missingToken ].
Proof. vm_compute. repeat split. Qed.

(** Every call looks the token up exactly once, whatever its outcome. *)
Lemma call_reads_env_once (c : ApiCall) (env : Env) (st : State) :
  envReads (trace (snd (call c env st))) = S (envReads (trace st)).
Proof.
  destruct (call_run c env st); cbn [snd trace]; rewrite envReads_app; cbn; lia.
Qed.

(** C4 (amended): each call of [uploadFilesToIPFS] or [uploadJSONToIPFS]
    looks the token up once, when the call starts; a call made while the
    token is absent (undefined or empty) throws the error "Missing
    Web3.Storage token..." before any network attempt, and does so at every
    such call. *)
Theorem token_resolved_at_each_call (c : ApiCall) (env : Env) (st : State) :
  envReads (trace (snd (call c env st))) = S (envReads (trace st))
  /\ (Ipfs.missing (env_token env) = true ->
      fst (call c env st) = Throw Ipfs.missingToken
      /\ trace (snd (call c env st))
         = trace st ++ [Invoked c; EnvRead; Raised c Ipfs.missingToken]
      /\ fetchCalls (trace (snd (call c env st))) = fetchCalls (trace st)
      /\ fetches (snd (call c env st)) = fetches st).
Proof.
  split; [apply call_reads_env_once|].
  intros Hm. rewrite (call_without_token c env st Hm). cbn [fst snd trace fetches].
  repeat split.
  unfold fetchCalls. rewrite filter_app, length_app. cbn. lia.
Qed.

Lemma token_resolved_at_each_call_witness :
  Ipfs.missing (env_token envNoToken) = true
  /\ fst (call (UploadFiles [diploma]) envNoToken init) = Throw Ipfs.missingToken.
Proof.
  split; [reflexivity|].
  apply (token_resolved_at_each_call (UploadFiles [diploma]) envNoToken init).
  reflexivity.
Defined.

(** ** Validation of the attachments *)

Lemma checkSize_limit (f : File) (maxMB : Z) :
  ProfilePage.checkSize f maxMB = negb (maxMB * 1024 * 1024 <? file_size f).
Proof. unfold ProfilePage.checkSize. apply Z.leb_antisym. Qed.

Lemma profile_pushChecked (maxMB : Z) (items acc : list File) :
  ProfilePage.pushChecked maxMB items acc
  = if existsb (fun f => maxMB * 1024 * 1024 <? file_size f) items
    then None else Some (acc ++ items).
Proof.
  revert acc. induction items as [|f rest IH]; intros acc; simpl.
  - now rewrite app_nil_r.
  - rewrite checkSize_limit, negb_involutive.
    destruct (maxMB * 1024 * 1024 <? file_size f); simpl; [reflexivity|].
    rewrite IH, <- app_assoc. reflexivity.
Qed.

Lemma profile_pushFirst (maxMB : Z) (items : list File) :
  ProfilePage.pushFirst maxMB items
  = if existsb (fun f => maxMB * 1024 * 1024 <? file_size f) (firstn 1 items)
    then None else Some (firstn 1 items).
Proof.
  destruct items as [|f rest]; simpl; [reflexivity|].
  rewrite checkSize_limit, negb_involutive, orb_false_r.
  now destruct (maxMB * 1024 * 1024 <? file_size f).
Qed.

Lemma job_pushChecked (items acc : list File) :
  PostJobPage.pushChecked items acc
  = if existsb (fun f => 10 * 1024 * 1024 <? file_size f) items
    then None else Some (acc ++ items).
Proof.
  revert acc.
  induction items as [|f rest IH]; intros acc;
    cbn [PostJobPage.pushChecked existsb orb].
  - now rewrite app_nil_r.
  - rewrite Z.gtb_ltb.
    destruct (10 * 1024 * 1024 <? file_size f); simpl; [reflexivity|].
    rewrite IH, <- app_assoc. reflexivity.
Qed.

Lemma collect_accepts (data : ProfileFormValues) :
  oversize (SubmitProfile data) = false ->
  ProfilePage.collect data
  = inr (ProfilePage.fileList (certifications data),
         ProfilePage.fileList (portfolioFiles data),
         firstn 1 (ProfilePage.fileList (profilePicture data))).
Proof.
  unfold oversize, examined, maxBytes. rewrite !existsb_app.
  intros H. apply orb_false_iff in H. destruct H as [Hc H].
  apply orb_false_iff in H. destruct H as [Hp Hi].
  unfold ProfilePage.collect.
  rewrite !profile_pushChecked, profile_pushFirst, Hc, Hp, Hi. reflexivity.
Qed.

Lemma collect_rejects (data : ProfileFormValues) :
  oversize (SubmitProfile data) = true ->
  exists msg, ProfilePage.collect data = inl msg.
Proof.
  unfold oversize, examined, maxBytes. rewrite !existsb_app.
  unfold ProfilePage.collect.
  rewrite !profile_pushChecked, profile_pushFirst.
  destruct (existsb _ (ProfilePage.fileList (certifications data)));
    [eexists; reflexivity|].
  destruct (existsb _ (ProfilePage.fileList (portfolioFiles data)));
    [eexists; reflexivity|].
  cbn [orb]. intros H. rewrite H. eexists; reflexivity.
Qed.

(** One-file submissions at the limit and one byte over it, role by
    role. *)
Lemma size_limit_single_file (name : string) :
  (forall f, ProfilePage.checkSize f 5 = true <-> file_size f <= 5 * 1024 * 1024)
  /\ (forall f, PostJobPage.pushChecked [f] [] = Some [f]
                <-> file_size f <= 10 * 1024 * 1024)
  /\ (let atLimit := mkFile name (5 * 1024 * 1024) in
      let over := mkFile name (5 * 1024 * 1024 + 1) in
      oversize (SubmitProfile (profileWith [atLimit] [atLimit] [atLimit])) = false
      /\ ProfilePage.collect (profileWith [atLimit] [atLimit] [atLimit])
         = inr ([atLimit], [atLimit], [atLimit])
      /\ ProfilePage.collect (profileWith [over] [] [])
         = inl "Certification exceeds 5MB"%string
      /\ ProfilePage.collect (profileWith [] [over] [])
         = inl "Portfolio file exceeds 5MB"%string
      /\ ProfilePage.collect (profileWith [] [] [over])
         = inl "Profile picture exceeds 5MB"%string)
  /\ (let atLimit := mkFile name (10 * 1024 * 1024) in
      let over := mkFile name (10 * 1024 * 1024 + 1) in
      oversize (SubmitJob (jobWith [atLimit])) = false
      /\ PostJobPage.pushChecked
           (PostJobPage.fileList (job_attachments (jobWith [atLimit]))) []
         = Some [atLimit]
      /\ PostJobPage.pushChecked
           (PostJobPage.fileList (job_attachments (jobWith [over]))) []
         = None).
Proof.
  split.
  { intros f. unfold ProfilePage.checkSize. rewrite Z.leb_le. reflexivity. }
  split.
  { intros f. rewrite job_pushChecked. cbn [existsb app]. rewrite orb_false_r.
    destruct (Z.ltb_spec (10 * 1024 * 1024) (file_size f)); split;
      try discriminate; try reflexivity; lia. }
  split; cbv zeta; repeat split.
Qed.

(** ** The two handlers *)

Ltac run_handler :=
  unfold events, exec, publish, ProfilePage.onSubmit, PostJobPage.onSubmit,
    tryCatch, ProfilePage.uploadIfAny, bind, emit, ret, now, init;
  cbn [fetches trace app].

Ltac step_upload :=
  match goal with
  | |- context [Ipfs.uploadFilesToIPFS ?fs ?env ?st] =>
      destruct (uploadFiles_run fs env st); cbn [app fetches trace fst snd]
  | |- context [Ipfs.uploadJSONToIPFS ?d ?env ?st] =>
      destruct (uploadJSON_run d env st); cbn [app fetches trace fst snd]
  end.

(** Splits a membership in an explicit list into its cases and drops the
    ones that name another event. *)
Ltac in_cases H :=
  cbn [In] in H;
  repeat (destruct H as [H|H]; [try discriminate H|]);
  try contradiction H.

(** When a handler returns early it has set the message and done nothing
    else. *)
Lemma oversize_events (env : Env) (s : Submission) :
  oversize s = true ->
  exists msg, events (publish s) env = [SetAttErr None; SetAttErr (Some msg)].
Proof.
  intros H. destruct s as [data|data].
  - destruct (collect_rejects data H) as [msg E].
    exists msg. run_handler. rewrite E. reflexivity.
  - exists "Attachment exceeds 10MB limit"%string. run_handler.
    rewrite job_pushChecked.
    unfold oversize, examined, maxBytes in H. rewrite H. reflexivity.
Qed.

(** C5, as stated, fails for the count rule: eleven portfolio files, each
    within the size limit, exceed the 10 files of a portfolio batch, and the
    handler still calls the storage service. *)
Lemma count_excess_reaches_network :
  let s := SubmitProfile (profileWith [] elevenShots []) in
  (List.length
     (ProfilePage.fileList (portfolioFiles (profileWith [] elevenShots []))) > 10)%nat
  /\ oversize s = false
  /\ uploadCalls (events (publish s) envReady) = 2%nat
  /\ fetchCalls (events (publish s) envReady) = 2%nat.
Proof. vm_compute. repeat split; lia. Qed.

(** C5 (amended): when a file that the handler examines is over the size
    limit of its page, the handler sets the validation message and returns
    before any upload call: no call of the client, no network attempt. *)
Theorem oversize_aborts_before_upload (env : Env) (s : Submission) :
  oversize s = true ->
  (exists msg, events (publish s) env = [SetAttErr None; SetAttErr (Some msg)]
               /\ attErr (events (publish s) env) = Some msg)
  /\ uploadCalls (events (publish s) env) = 0%nat
  /\ fetchCalls (events (publish s) env) = 0%nat.
Proof.
  intros H. destruct (oversize_events env s H) as [msg E].
  rewrite E. split; [exists msg; split; reflexivity|]. split; reflexivity.
Qed.

Lemma oversize_aborts_before_upload_witness :
  oversize (SubmitJob (jobWith [diploma; mkFile "video.mp4" (11 * MB)])) = true
  /\ uploadCalls
       (events (publish (SubmitJob (jobWith [diploma; mkFile "video.mp4" (11 * MB)])))
          envReady) = 0%nat.
Proof.
  split; [reflexivity|].
  apply (oversize_aborts_before_upload envReady
           (SubmitJob (jobWith [diploma; mkFile "video.mp4" (11 * MB)]))).
  reflexivity.
Defined.


(** A submission that passes the size check never gets a message, and it
    reaches the client at least once. *)
Lemma accepted_submission_proceeds (env : Env) (s : Submission) :
  oversize s = false ->
  attErr (events (publish s) env) = None
  /\ (1 <= uploadCalls (events (publish s) env))%nat.
Proof.
  intros H. destruct s as [data|data]; run_handler.
  - rewrite (collect_accepts data H). unfold JS.slice0.
    destruct (ProfilePage.fileList (certifications data)) as [|c cs];
      destruct (ProfilePage.fileList (portfolioFiles data)) as [|p ps];
      destruct (ProfilePage.fileList (profilePicture data)) as [|q qs];
      cbn [firstn]; repeat step_upload;
      (split; [reflexivity | cbn; lia]).
  - rewrite job_pushChecked.
    unfold oversize, examined, maxBytes in H. rewrite H. cbn [app].
    destruct (PostJobPage.fileList (job_attachments data)) as [|a r];
      repeat step_upload;
      (split; [reflexivity | cbn; lia]).
Qed.

(** ** The size limit, for every examined file *)

Lemma oversize_false_iff (s : Submission) :
  oversize s = false
  <-> forall f, In f (examined s) -> file_size f <= maxBytes s.
Proof.
  unfold oversize. split.
  - intros E f Hf.
    destruct (Z.ltb_spec (maxBytes s) (file_size f)) as [L|G]; [|exact G].
    assert (X : existsb (fun f => maxBytes s <? file_size f) (examined s) = true).
    { apply existsb_exists. exists f. split; [exact Hf | now apply Z.ltb_lt]. }
    congruence.
  - intros A.
    destruct (existsb (fun f => maxBytes s <? file_size f) (examined s)) eqn:E;
      [|reflexivity].
    apply existsb_exists in E. destruct E as [f [Hf L]].
    apply Z.ltb_lt in L. specialize (A f Hf). lia.
Qed.

Lemma accepted_oversize (s : Submission) : accepted s = negb (oversize s).
Proof.
  destruct (oversize s) eqn:H; destruct s as [data|data]; cbn [accepted negb].
  - destruct (collect_rejects data H) as [msg E]. now rewrite E.
  - rewrite job_pushChecked.
    unfold oversize, examined, maxBytes in H. now rewrite H.
  - now rewrite (collect_accepts data H).
  - rewrite job_pushChecked.
    unfold oversize, examined, maxBytes in H. now rewrite H.
Qed.

(** C9: the size limit is inclusive, for every file that a handler
    examines (every certification, every portfolio file and the first
    profile picture, against 5MB; every job attachment, against 10MB).  A
    submission gets past the size checks, and no message is set, exactly
    when each examined file has at most the limit of its page: a file of
    exactly the limit is accepted at any position, and a file of one byte
    more is rejected at any position. *)
Theorem size_limit_inclusive (env : Env) (s : Submission) :
  (accepted s = true
   <-> forall f, In f (examined s) -> file_size f <= maxBytes s)
  /\ (attErr (events (publish s) env) = None
      <-> forall f, In f (examined s) -> file_size f <= maxBytes s)
  /\ ((forall f, In f (examined s) -> file_size f = maxBytes s) ->
      accepted s = true /\ attErr (events (publish s) env) = None)
  /\ (forall f, In f (examined s) -> file_size f = maxBytes s + 1 ->
                accepted s = false
                /\ attErr (events (publish s) env) <> None
                /\ uploadCalls (events (publish s) env) = 0%nat)
  /\ (forall f, ProfilePage.checkSize f 5 = true
                <-> file_size f <= 5 * 1024 * 1024).
Proof.
  assert (A : accepted s = true
              <-> forall f, In f (examined s) -> file_size f <= maxBytes s).
  { rewrite accepted_oversize, <- oversize_false_iff.
    destruct (oversize s); cbn; split; congruence. }
  assert (B : attErr (events (publish s) env) = None
              <-> forall f, In f (examined s) -> file_size f <= maxBytes s).
  { rewrite <- oversize_false_iff. destruct (oversize s) eqn:H.
    - destruct (oversize_events env s H) as [msg E]. rewrite E. cbn.
      split; discriminate.
    - split; [reflexivity|]. intros _.
      apply (accepted_submission_proceeds env s H). }
  split; [exact A|]. split; [exact B|]. split; [|split].
  - intros L. split; [apply A | apply B]; intros f Hf; rewrite (L f Hf); lia.
  - intros f Hf L.
    assert (O : oversize s = true).
    { destruct (oversize s) eqn:H; [reflexivity|].
      pose proof (proj1 (oversize_false_iff s) H f Hf). lia. }
    split; [rewrite accepted_oversize, O; reflexivity|].
    destruct (oversize_events env s O) as [msg E]. rewrite E. cbn.
    split; [discriminate | reflexivity].
  - intros f. unfold ProfilePage.checkSize. rewrite Z.leb_le. reflexivity.
Qed.

Lemma size_limit_inclusive_witness :
  (accepted (SubmitJob (jobWith [diploma; mkFile "plan.pdf" (10 * 1024 * 1024)]))
   = true)
  /\ (accepted (SubmitJob (jobWith [diploma; mkFile "plan.pdf" (10 * 1024 * 1024 + 1)]))
      = false)
  /\ (accepted (SubmitProfile
                  (profileWith [mkFile "c.pdf" (5 * 1024 * 1024)]
                     [mkFile "p.png" (5 * 1024 * 1024)]
                     [mkFile "me.png" (5 * 1024 * 1024)])) = true)
  /\ (accepted (SubmitProfile
                  (profileWith [diploma]
                     (elevenShots ++ [mkFile "p.png" (5 * 1024 * 1024 + 1)]) []))
      = false).
Proof.
  split; [|split; [|split]].
  - apply (proj1 (size_limit_inclusive envReady
                    (SubmitJob (jobWith [diploma; mkFile "plan.pdf" (10 * 1024 * 1024)])))).
    intros f Hf. cbn in Hf.
    destruct Hf as [<-|[<-|[]]]; apply Z.leb_le; reflexivity.
  - apply (proj1 (proj2 (proj2 (proj2
             (size_limit_inclusive envReady
                (SubmitJob (jobWith [diploma; mkFile "plan.pdf" (10 * 1024 * 1024 + 1)]))))))
             (mkFile "plan.pdf" (10 * 1024 * 1024 + 1))).
    + cbn. tauto.
    + reflexivity.
  - apply (proj1 (proj2 (proj2
             (size_limit_inclusive envReady
                (SubmitProfile
                   (profileWith [mkFile "c.pdf" (5 * 1024 * 1024)]
                      [mkFile "p.png" (5 * 1024 * 1024)]
                      [mkFile "me.png" (5 * 1024 * 1024)])))))).
    intros f Hf. cbn in Hf. destruct Hf as [<-|[<-|[<-|[]]]]; reflexivity.
  - apply (proj1 (proj2 (proj2 (proj2
             (size_limit_inclusive envReady
                (SubmitProfile
                   (profileWith [diploma]
                      (elevenShots ++ [mkFile "p.png" (5 * 1024 * 1024 + 1)]) []))))))
             (mkFile "p.png" (5 * 1024 * 1024 + 1))).
    + cbn. tauto.
    + reflexivity.
Defined.




(** C3: when a call of [uploadFilesToIPFS] throws during a submission,
    [uploadJSONToIPFS] is not called, nothing is published (no URL, no
    success), and the run ends with the [alert] of the error's message. *)
Theorem batch_failure_aborts_publish
        (env : Env) (s : Submission) (fs : list File) (e : JsError) :
  In (Raised (UploadFiles fs) e) (events (publish s) env) ->
  documentCalls (events (publish s) env) = 0%nat
  /\ (forall u, ~ In (SetIpfsUrl u) (events (publish s) env))
  /\ (forall b, ~ In (SetIsSuccess b) (events (publish s) env))
  /\ last (events (publish s) env) EnvRead
     = Alert (JS.strOr (message e) (fallbackMessage s)).
Proof.
  destruct s as [data|data]; run_handler.
  - destruct (ProfilePage.collect data) as [msg|[[certFiles pfFiles] profilePic]].
    + intros I. in_cases I.
    + destruct certFiles, pfFiles, profilePic; repeat step_upload;
        intros I; in_cases I;
        injection I as <- <-;
        (split; [reflexivity|]);
        (split; [intros u J; in_cases J|]);
        (split; [intros b J; in_cases J | reflexivity]).
  - destruct (PostJobPage.pushChecked _ _) as [files|].
    + destruct files; repeat step_upload;
        intros I; in_cases I;
        injection I as <- <-;
        (split; [reflexivity|]);
        (split; [intros u J; in_cases J|]);
        (split; [intros b J; in_cases J | reflexivity]).
    + intros I. in_cases I.
Qed.

Lemma batch_failure_aborts_publish_witness :
  In (Raised (UploadFiles [diploma]) (mkError "IPFS upload failed: quota exceeded"))
     (events (publish (SubmitProfile (profileWith [diploma] elevenShots [])))
        envRefusingFirst)
  /\ documentCalls
       (events (publish (SubmitProfile (profileWith [diploma] elevenShots [])))
          envRefusingFirst) = 0%nat.
Proof.
  assert (I : In (Raised (UploadFiles [diploma])
                    (mkError "IPFS upload failed: quota exceeded"))
                 (events (publish (SubmitProfile (profileWith [diploma] elevenShots [])))
                    envRefusingFirst)).
  { vm_compute. tauto. }
  split; [exact I|].
  apply (batch_failure_aborts_publish envRefusingFirst
           (SubmitProfile (profileWith [diploma] elevenShots []))
           [diploma] (mkError "IPFS upload failed: quota exceeded") I).
Defined.

(** A run in which the storage service accepts everything: two batches and
    the document are uploaded, in this order, and the profile is published. *)
Example publish_profile_succeeds :
  let data := profileWith [diploma] elevenShots [] in
  let certs := UploadFiles [diploma] in
  let shots := UploadFiles (firstn 10 elevenShots) in
  let doc := UploadJSON (ProfileDoc data (Some "bafy") (Some "bafy") None
                           "2026-01-01T00:00:00.000Z")%string in
  let r := mkCidUrl (Some "bafy"%string) "https://w3s.link/ipfs/bafy" in
  filter (fun ev => negb (isFetch ev)) (events (publish (SubmitProfile data)) envReady)
  = [ SetAttErr None;
      Invoked certs; EnvRead; Returned certs r;
      Invoked shots; EnvRead; Returned shots r;
      Invoked doc; EnvRead; Returned doc r;
      SetIpfsUrl "https://w3s.link/ipfs/bafy"; SetIsSuccess true;
      StorageRemove "profile_draft";
      StorageSetProfile "profile_published" data "https://w3s.link/ipfs/bafy" ].
Proof. vm_compute. reflexivity. Qed.

(** * Further properties *)

(** ** The client *)

Lemma call_attempt (c : ApiCall) (env : Env) (st : State) :
  call c env st = attempt env c st.
Proof.
  destruct c; unfold call, attempt, answer, requestOf, bodyOf,
    Ipfs.uploadFilesToIPFS, Ipfs.uploadJSONToIPFS,
    Ipfs.recorded, bind, Ipfs.readToken, Ipfs.fetch, Ipfs.json, throw, ret;
    cbn [fetches trace];
    (destruct (Ipfs.missing (env_token env)); [norm_trace; reflexivity|]);
    cbn [fetches trace];
    (destruct (net env (fetches st)) as [e|res]; [norm_trace; reflexivity|]);
    (destruct (ok res); cbn [negb]; [|norm_trace; reflexivity]);
    destruct (body_json res); norm_trace; reflexivity.
Qed.

Lemma uploadFiles_attempt (files : list File) (env : Env) (st : State) :
  Ipfs.uploadFilesToIPFS files env st = attempt env (UploadFiles files) st.
Proof. apply (call_attempt (UploadFiles files)). Qed.

Lemma uploadJSON_attempt (data : Document) (env : Env) (st : State) :
  Ipfs.uploadJSONToIPFS data env st = attempt env (UploadJSON data) st.
Proof. apply (call_attempt (UploadJSON data)). Qed.

Lemma fetchCalls_app (t u : list Event) :
  fetchCalls (t ++ u) = (fetchCalls t + fetchCalls u)%nat.
Proof. unfold fetchCalls. now rewrite filter_app, length_app. Qed.

(** X1: a call makes one network attempt when the token is present and
    none when it is absent; it never retries. *)
Theorem call_single_attempt (c : ApiCall) (env : Env) (st : State) :
  fetchCalls (trace (snd (call c env st)))
  = (fetchCalls (trace st) + if Ipfs.missing (env_token env) then 0 else 1)%nat
  /\ fetches (snd (call c env st))
     = (fetches st + if Ipfs.missing (env_token env) then 0 else 1)%nat.
Proof.
  rewrite call_attempt. unfold attempt.
  destruct (Ipfs.missing (env_token env)).
  - cbn [snd trace fetches]. rewrite fetchCalls_app. cbn. lia.
  - destruct (answer env (fetches st)); cbn [snd trace fetches];
      rewrite fetchCalls_app; cbn; lia.
Qed.

(** X2: a call returns exactly when the token is present and the answer to
    its attempt is a success whose body parses; the URL it returns is the
    gateway prefix followed by the [cid] of the body. *)
Theorem call_returns_iff (c : ApiCall) (env : Env) (st : State) (r : CidUrl) :
  fst (call c env st) = Ok r
  <-> Ipfs.missing (env_token env) = false
      /\ (exists res, net env (fetches st) = Responds res
                      /\ ok res = true
                      /\ body_json res = JsonObject (cid_of r))
      /\ url_of r = Ipfs.gatewayUrl (cid_of r).
Proof.
  rewrite call_attempt. unfold attempt, answer.
  destruct (Ipfs.missing (env_token env)).
  { cbn. split; [discriminate | intros [H _]; discriminate]. }
  destruct (net env (fetches st)) as [e|res].
  { cbn. split; [discriminate | intros [_ [[res [H _]] _]]; discriminate]. }
  destruct (ok res) eqn:Hok.
  - destruct (body_json res) as [e|cid] eqn:Hj; cbn [fst].
    + split; [discriminate|].
      intros [_ [[res' [E [_ J]]] _]]. injection E as <-. congruence.
    + split.
      * intros E. injection E as <-. cbn.
        split; [reflexivity|]. split; [|reflexivity].
        exists res. repeat split; assumption.
      * intros [_ [[res' [E [_ J]]] U]]. injection E as <-.
        rewrite Hj in J. injection J as J. destruct r as [rc ru].
        cbn in *. subst. reflexivity.
  - cbn [fst]. split; [discriminate|].
    intros [_ [[res' [E [K _]]] _]]. injection E as <-. congruence.
Qed.

(** X3: when the service refuses an upload (a response that is not ok), the
    call throws "IPFS upload failed: " followed by the text of the response,
    and the body is not parsed. *)
Theorem call_refused (c : ApiCall) (env : Env) (st : State) (res : Response) :
  Ipfs.missing (env_token env) = false ->
  net env (fetches st) = Responds res ->
  ok res = false ->
  fst (call c env st) = Throw (mkError ("IPFS upload failed: " ++ body_text res))
  /\ trace (snd (call c env st))
     = trace st ++ [Invoked c; EnvRead; Fetch (requestOf env c);
                    Raised c (mkError ("IPFS upload failed: " ++ body_text res))].
Proof.
  intros Hm Hn Hok. rewrite call_attempt. unfold attempt, answer.
  rewrite Hm, Hn, Hok. split; reflexivity.
Qed.

Lemma call_refused_witness :
  fst (call (UploadFiles [diploma]) envRefusingFirst init)
  = Throw (mkError "IPFS upload failed: quota exceeded").
Proof.
  apply (call_refused (UploadFiles [diploma]) envRefusingFirst init
           (mkResponse false "quota exceeded" (JsonRejects (mkError EmptyString))));
    reflexivity.
Defined.

(** ** The handlers, call by call *)

(** Replaces the next call of the client by its closed form and splits on
    the answer to its attempt. *)
Ltac step_call Hm :=
  match goal with
  | |- context [Ipfs.uploadFilesToIPFS ?fs ?env ?st] =>
      rewrite (uploadFiles_attempt fs env st)
  | |- context [Ipfs.uploadJSONToIPFS ?d ?env ?st] =>
      rewrite (uploadJSON_attempt d env st)
  end;
  unfold attempt; rewrite Hm; cbn [fetches trace app];
  try match goal with
      | |- context [answer ?env ?n] =>
          let A := fresh "A" in
          destruct (answer env n) eqn:A; cbn [fetches trace app fst snd]
      end.

(** Opens a handler on a submission that passes the size check, and splits
    on which of its batches are empty. *)
Ltac open_handler s H :=
  destruct s as [data|data]; run_handler;
  [ rewrite (collect_accepts data H);
    unfold batchCalls, batches, draftKey, fallbackMessage, JS.slice0;
    destruct (ProfilePage.fileList (certifications data)) as [|c cs];
    destruct (ProfilePage.fileList (portfolioFiles data)) as [|p ps];
    destruct (ProfilePage.fileList (profilePicture data)) as [|q qs];
    cbn [firstn filter map isEmpty negb app]
  | rewrite job_pushChecked;
    unfold oversize, examined, maxBytes in H; rewrite H;
    unfold batchCalls, batches, draftKey, fallbackMessage;
    destruct (PostJobPage.fileList (job_attachments data)) as [|a r];
    cbn [filter map isEmpty negb app] ].

(** X4: a handler never rejects: whatever the storage service does, the
    error is caught and the handler returns. *)
Theorem publish_never_throws (env : Env) (s : Submission) :
  fst (exec (publish s) env) = Ok tt.
Proof.
  destruct (oversize s) eqn:H.
  - destruct s as [data|data]; unfold exec, publish.
    + destruct (collect_rejects data H) as [msg E].
      unfold ProfilePage.onSubmit, bind, emit. cbn [fetches trace].
      rewrite E. reflexivity.
    + unfold PostJobPage.onSubmit, bind, emit. cbn [fetches trace].
      rewrite job_pushChecked.
      unfold oversize, examined, maxBytes in H. rewrite H. reflexivity.
  - destruct (Ipfs.missing (env_token env)) eqn:Hm;
      open_handler s H; unfold events, exec; run_handler.
    all: repeat step_call Hm; reflexivity.
Qed.

(** Finishes a goal on an explicit trace: memberships are split, the cases
    that name another event are dropped. *)
Ltac no_member :=
  let J := fresh "J" in intros J; in_cases J.

(** Finds an event in an explicit trace. *)
Ltac find_member :=
  cbn [In]; repeat (first [left; reflexivity | right]).

(** X5: a submission that passes the size check ends in exactly one of two
    ways: it is published (URL and success are set, nothing was thrown and
    nothing is alerted), or one call threw, its message is alerted last and
    nothing is published. *)
Theorem publish_or_alert (env : Env) (s : Submission) :
  oversize s = false ->
  let ev := events (publish s) env in
  (In (SetIsSuccess true) ev
   /\ (forall c e, ~ In (Raised c e) ev)
   /\ (forall m, ~ In (Alert m) ev))
  \/ ((exists c e, In (Raised c e) ev
                   /\ last ev EnvRead
                      = Alert (JS.strOr (message e) (fallbackMessage s)))
      /\ (forall b, ~ In (SetIsSuccess b) ev)
      /\ (forall u, ~ In (SetIpfsUrl u) ev)).
Proof.
  intros H. cbv zeta.
  destruct (Ipfs.missing (env_token env)) eqn:Hm; open_handler s H.
  all: repeat step_call Hm.
  all: first
    [ solve [ left; split; [find_member|];
              split; [intros ? ?; no_member | intros ?; no_member] ]
    | solve [ right; split;
              [ do 2 eexists; split; [find_member | reflexivity]
              | split; intros ?; no_member ] ] ].
Qed.

Lemma publish_or_alert_witness :
  In (SetIsSuccess true)
     (events (publish (SubmitJob (jobWith [diploma]))) envReady)
  \/ (forall b, ~ In (SetIsSuccess b)
                    (events (publish (SubmitJob (jobWith [diploma]))) envReady)).
Proof.
  destruct (publish_or_alert envReady (SubmitJob (jobWith [diploma])) eq_refl)
    as [[S _]|[_ [N _]]]; [left; exact S | right; exact N].
Defined.

(** When a handler returns early nothing was invoked, thrown or stored. *)
Ltac early_return env s H I :=
  let msg := fresh "msg" in
  let E := fresh "E" in
  destruct (oversize_events env s H) as [msg E];
  rewrite E in I; in_cases I.

(** X6: a submission that passes the size check makes at least one call,
    and its calls follow the order of the handler: the batches that hold a
    file, one after the other, then the document.  Either every such batch
    was uploaded and the document upload was called, or the calls stop at
    the batch whose upload threw: no call is made after a call that
    throws. *)
Theorem calls_in_order (env : Env) (s : Submission) :
  oversize s = false ->
  (exists n c e,
      (n < List.length (batchCalls s))%nat
      /\ invocations (events (publish s) env) = firstn (S n) (batchCalls s)
      /\ nth_error (batchCalls s) n = Some c
      /\ In (Raised c e) (events (publish s) env)
      /\ List.length (invocations (events (publish s) env)) = S n)
  \/ (exists d,
        invocations (events (publish s) env) = batchCalls s ++ [UploadJSON d]
        /\ In (Invoked (UploadJSON d)) (events (publish s) env)).
Proof.
  intros H.
  destruct (Ipfs.missing (env_token env)) eqn:Hm; open_handler s H.
  all: repeat step_call Hm.
  all: cbn [invocations firstn app List.length nth_error].
  all: first
    [ solve [ right; eexists; split; [reflexivity | find_member] ]
    | solve [ left; exists 0%nat; do 2 eexists;
              split; [lia|]; split; [reflexivity|]; split; [reflexivity|];
              split; [find_member | reflexivity] ]
    | solve [ left; exists 1%nat; do 2 eexists;
              split; [lia|]; split; [reflexivity|]; split; [reflexivity|];
              split; [find_member | reflexivity] ]
    | solve [ left; exists 2%nat; do 2 eexists;
              split; [lia|]; split; [reflexivity|]; split; [reflexivity|];
              split; [find_member | reflexivity] ] ].
Qed.

Lemma calls_in_order_witness :
  (exists n c e,
      (n < List.length
             (batchCalls (SubmitProfile (profileWith [diploma] elevenShots []))))%nat
      /\ invocations
           (events (publish (SubmitProfile (profileWith [diploma] elevenShots [])))
              envRefusingSecond)
         = firstn (S n)
             (batchCalls (SubmitProfile (profileWith [diploma] elevenShots [])))
      /\ nth_error
           (batchCalls (SubmitProfile (profileWith [diploma] elevenShots []))) n
         = Some c
      /\ In (Raised c e)
            (events (publish (SubmitProfile (profileWith [diploma] elevenShots [])))
               envRefusingSecond)
      /\ List.length
           (invocations
              (events (publish (SubmitProfile (profileWith [diploma] elevenShots [])))
                 envRefusingSecond)) = S n)
  \/ (exists d,
        invocations
          (events (publish (SubmitProfile (profileWith [diploma] elevenShots [])))
             envRefusingSecond)
        = batchCalls (SubmitProfile (profileWith [diploma] elevenShots []))
          ++ [UploadJSON d]
        /\ In (Invoked (UploadJSON d))
              (events (publish (SubmitProfile (profileWith [diploma] elevenShots [])))
                 envRefusingSecond)).
Proof.
  exact (calls_in_order envRefusingSecond
           (SubmitProfile (profileWith [diploma] elevenShots [])) eq_refl).
Defined.

Example calls_stop_at_the_failure :
  invocations
    (events (publish (SubmitProfile (profileWith [diploma] elevenShots [])))
       envRefusingSecond)
  = [UploadFiles [diploma]; UploadFiles (firstn 10 elevenShots)].
Proof. vm_compute. reflexivity. Qed.

(** X7: the document a handler uploads holds the submitted data, the time
    of the clock, and for each batch the [cid] that the upload of the batch
    returned, or [null] when the batch is empty. *)
Theorem document_records_uploads (env : Env) (s : Submission) (d : Document) :
  In (Invoked (UploadJSON d)) (events (publish s) env) ->
  match s with
  | SubmitProfile data =>
      exists c1 c2 c3,
        d = ProfileDoc data c1 c2 c3 (clock env)
        /\ recordsCid (events (publish s) env)
             (ProfilePage.fileList (certifications data)) c1
        /\ recordsCid (events (publish s) env)
             (firstn 10 (ProfilePage.fileList (portfolioFiles data))) c2
        /\ recordsCid (events (publish s) env)
             (firstn 1 (ProfilePage.fileList (profilePicture data))) c3
  | SubmitJob data =>
      exists c,
        d = JobDoc data (clock env) c
        /\ recordsCid (events (publish s) env)
             (PostJobPage.fileList (job_attachments data)) c
  end.
Proof.
  destruct (oversize s) eqn:H.
  { intros I. early_return env s H I. }
  destruct (Ipfs.missing (env_token env)) eqn:Hm; open_handler s H.
  all: repeat step_call Hm.
  all: intros I; in_cases I; injection I as <-.
  all: repeat eexists; cbn [recordsCid ProfilePage.cidOrNull cid_of];
    try reflexivity; try find_member.
  all: reflexivity.
Qed.

Lemma document_records_uploads_witness :
  exists c,
    JobDoc (jobWith [diploma]) "2026-01-01T00:00:00.000Z" (Some "bafy"%string)
    = JobDoc (jobWith [diploma]) (clock envReady) c.
Proof.
  assert (I : In (Invoked (UploadJSON
                     (JobDoc (jobWith [diploma]) "2026-01-01T00:00:00.000Z"
                        (Some "bafy"%string))))
                 (events (publish (SubmitJob (jobWith [diploma]))) envReady)).
  { vm_compute. tauto. }
  destruct (document_records_uploads envReady (SubmitJob (jobWith [diploma])) _ I)
    as [c [E _]].
  exists c. exact E.
Defined.

(** X8: the draft is removed from [localStorage] only by a publish that
    succeeded: the key is the page's draft key, the document upload
    returned, and the URL that is set is the gateway URL of the document's
    [cid]. *)
Theorem draft_removed_on_success (env : Env) (s : Submission) (key : string) :
  In (StorageRemove key) (events (publish s) env) ->
  key = draftKey s
  /\ In (SetIsSuccess true) (events (publish s) env)
  /\ exists d cid,
       In (Returned (UploadJSON d) (mkCidUrl cid (Ipfs.gatewayUrl cid)))
          (events (publish s) env)
       /\ In (SetIpfsUrl (Ipfs.gatewayUrl cid)) (events (publish s) env).
Proof.
  destruct (oversize s) eqn:H.
  { intros I. early_return env s H I. }
  destruct (Ipfs.missing (env_token env)) eqn:Hm; open_handler s H.
  all: repeat step_call Hm.
  all: intros I; in_cases I; injection I as <-.
  all: split; [reflexivity|]; split; [find_member|].
  all: do 2 eexists; split; find_member.
Qed.

Lemma draft_removed_on_success_witness :
  In (SetIsSuccess true) (events (publish (SubmitJob (jobWith [diploma]))) envReady).
Proof.
  assert (I : In (StorageRemove "post_job_draft")
                 (events (publish (SubmitJob (jobWith [diploma]))) envReady)).
  { vm_compute. tauto. }
  apply (draft_removed_on_success envReady (SubmitJob (jobWith [diploma])) _ I).
Defined.

(** X9: when the document upload throws, every batch that holds a file has
    already been uploaded and has returned (its content stays in the
    store), nothing is published, and the error is alerted. *)
Theorem document_failure_leaves_batches
        (env : Env) (s : Submission) (d : Document) (e : JsError) :
  In (Raised (UploadJSON d) e) (events (publish s) env) ->
  (forall b, In b (batchCalls s) ->
             exists r, In (Returned b r) (events (publish s) env))
  /\ (forall b, ~ In (SetIsSuccess b) (events (publish s) env))
  /\ (forall key, ~ In (StorageRemove key) (events (publish s) env))
  /\ last (events (publish s) env) EnvRead
     = Alert (JS.strOr (message e) (fallbackMessage s)).
Proof.
  destruct (oversize s) eqn:H.
  { intros I. early_return env s H I. }
  destruct (Ipfs.missing (env_token env)) eqn:Hm; open_handler s H.
  all: repeat step_call Hm.
  all: intros I; in_cases I; injection I as <- <-.
  all: split;
    [ intros b B; in_cases B; subst b; eexists; find_member
    | split; [intros ?; no_member|]; split; [intros ?; no_member | reflexivity] ].
Qed.

Lemma document_failure_leaves_batches_witness :
  (exists r, In (Returned (UploadFiles [diploma]) r)
                (events (publish (SubmitJob (jobWith [diploma]))) envRefusingSecond))
  /\ last (events (publish (SubmitJob (jobWith [diploma]))) envRefusingSecond) EnvRead
     = Alert "IPFS upload failed: quota exceeded".
Proof.
  assert (I : In (Raised
                    (UploadJSON (JobDoc (jobWith [diploma]) "2026-01-01T00:00:00.000Z"
                                   (Some "bafy"%string)))
                    (mkError "IPFS upload failed: quota exceeded"))
                 (events (publish (SubmitJob (jobWith [diploma]))) envRefusingSecond)).
  { vm_compute. tauto. }
  pose proof (document_failure_leaves_batches envRefusingSecond
                (SubmitJob (jobWith [diploma])) _ _ I) as P.
  split.
  - exact (proj1 P (UploadFiles [diploma]) (or_introl eq_refl)).
  - exact (proj2 (proj2 (proj2 P))).
Defined.

(** X10: a submission makes at most one call per batch that holds a file
    and one for the document, so at most 4 on the profile page and 2 on the
    job page; each call looks the token up once and makes at most one
    network attempt. *)
Theorem calls_bounded (env : Env) (s : Submission) :
  let ev := events (publish s) env in
  (uploadCalls ev <= List.length (batchCalls s) + 1)%nat
  /\ (uploadCalls ev <= match s with SubmitProfile _ => 4 | SubmitJob _ => 2 end)%nat
  /\ (documentCalls ev <= 1)%nat
  /\ envReads ev = uploadCalls ev
  /\ (fetchCalls ev <= uploadCalls ev)%nat.
Proof.
  cbv zeta. destruct (oversize s) eqn:H.
  { destruct (oversize_events env s H) as [msg E]. rewrite E.
    cbn. destruct s; lia. }
  destruct (Ipfs.missing (env_token env)) eqn:Hm; open_handler s H.
  all: repeat step_call Hm.
  all: cbn; lia.
Qed.

(** X11: with no token in the environment, a submission that passes the
    size check makes one call, no network attempt, and alerts the
    missing-token message. *)
Theorem publish_without_token (env : Env) (s : Submission) :
  Ipfs.missing (env_token env) = true ->
  oversize s = false ->
  let ev := events (publish s) env in
  uploadCalls ev = 1%nat
  /\ fetchCalls ev = 0%nat
  /\ last ev EnvRead = Alert (message Ipfs.missingToken)
  /\ (forall b, ~ In (SetIsSuccess b) ev).
Proof.
  intros Hm H. cbv zeta. open_handler s H.
  all: repeat step_call Hm.
  all: split; [reflexivity|]; split; [reflexivity|]; split;
    [reflexivity | intros ?; no_member].
Qed.

Lemma publish_without_token_witness :
  fetchCalls (events (publish (SubmitProfile (profileWith [diploma] elevenShots [])))
                envNoToken) = 0%nat.
Proof.
  apply (publish_without_token envNoToken
           (SubmitProfile (profileWith [diploma] elevenShots []))
           eq_refl eq_refl).
Defined.

(** X12: when the token is present and the storage service accepts every
    upload, a submission that passes the size check is published: every
    batch that holds a file is uploaded, then the document, and success is
    set. *)
Theorem publish_succeeds (env : Env) (s : Submission) :
  Ipfs.missing (env_token env) = false ->
  (forall n, exists c, answer env n = Ok c) ->
  oversize s = false ->
  let ev := events (publish s) env in
  (exists d, invocations ev = batchCalls s ++ [UploadJSON d])
  /\ In (SetIsSuccess true) ev
  /\ In (StorageRemove (draftKey s)) ev
  /\ (forall m, ~ In (Alert m) ev).
Proof.
  intros Hm Hall H. cbv zeta. open_handler s H.
  all: repeat (step_call Hm;
               try match goal with
                   | A : answer _ ?n = Throw _ |- _ =>
                       destruct (Hall n) as [? ?]; congruence
                   end).
  all: split; [eexists; reflexivity|]; split; [find_member|];
    split; [find_member | intros ?; no_member].
Qed.

Lemma publish_succeeds_witness :
  In (SetIsSuccess true)
     (events (publish (SubmitProfile (profileWith [diploma] elevenShots []))) envReady).
Proof.
  pose proof (publish_succeeds envReady
                (SubmitProfile (profileWith [diploma] elevenShots []))
                eq_refl
                (fun n => ex_intro _ (Some "bafy"%string) eq_refl)
                eq_refl) as P.
  exact (proj1 (proj2 P)).
Defined.

(** X13: every request that a submission sends goes by POST to the upload
    address, carries the token of the environment, which is not empty, and
    has the body of a call that the handler made. *)
Theorem requests_carry_token (env : Env) (s : Submission) (req : Request) :
  In (Fetch req) (events (publish s) env) ->
  (exists t, env_token env = Some t /\ t <> EmptyString /\ req_bearer req = t)
  /\ req_url req = "https://api.web3.storage/upload"%string
  /\ req_method req = "POST"%string
  /\ exists c, In (Invoked c) (events (publish s) env) /\ req_body req = bodyOf c.
Proof.
  destruct (oversize s) eqn:H.
  { intros I. early_return env s H I. }
  destruct (Ipfs.missing (env_token env)) eqn:Hm.
  - open_handler s H. all: repeat step_call Hm. all: intros I; in_cases I.
  - assert (T : exists t, env_token env = Some t /\ t <> EmptyString).
    { unfold Ipfs.missing in Hm. destruct (env_token env) as [t|]; [|discriminate].
      exists t. split; [reflexivity|]. intros ->. discriminate. }
    destruct T as [t [Et Nt]].
    open_handler s H.
    all: repeat step_call Hm.
    all: intros I; in_cases I; injection I as <-.
    all: unfold requestOf; rewrite Et;
      cbn [req_bearer req_url req_method req_body Ipfs.bearer].
    all: split; [exists t; repeat split; assumption|].
    all: split; [reflexivity|]; split; [reflexivity|].
    all: eexists; (split; [|reflexivity]); find_member.
Qed.

Lemma requests_carry_token_witness :
  req_method (requestOf envReady (UploadFiles [diploma])) = "POST"%string.
Proof.
  assert (I : In (Fetch (requestOf envReady (UploadFiles [diploma])))
                 (events (publish (SubmitJob (jobWith [diploma]))) envReady)).
  { vm_compute. tauto. }
  apply (requests_carry_token envReady (SubmitJob (jobWith [diploma])) _ I).
Defined.

(** X27: the profile page stores the published profile only after a
    publish that succeeded: under the key "profile_published", with the
    submitted data and the gateway URL of the document, and after the draft
    was removed. *)
Theorem published_profile_stored
        (env : Env) (data stored : ProfileFormValues) (key u : string) :
  In (StorageSetProfile key stored u) (events (ProfilePage.onSubmit data) env) ->
  key = "profile_published"%string
  /\ stored = data
  /\ (exists d cid,
        In (Returned (UploadJSON d) (mkCidUrl cid u))
           (events (ProfilePage.onSubmit data) env)
        /\ u = Ipfs.gatewayUrl cid)
  /\ In (SetIpfsUrl u) (events (ProfilePage.onSubmit data) env)
  /\ In (StorageRemove "profile_draft") (events (ProfilePage.onSubmit data) env).
Proof.
  change (ProfilePage.onSubmit data) with (publish (SubmitProfile data)).
  destruct (oversize (SubmitProfile data)) eqn:H.
  { intros I. early_return env (SubmitProfile data) H I. }
  destruct (Ipfs.missing (env_token env)) eqn:Hm;
    run_handler; rewrite (collect_accepts data H); unfold JS.slice0;
    destruct (ProfilePage.fileList (certifications data)) as [|c cs];
    destruct (ProfilePage.fileList (portfolioFiles data)) as [|p ps];
    destruct (ProfilePage.fileList (profilePicture data)) as [|q qs];
    cbn [firstn].
  all: repeat step_call Hm.
  all: intros I; in_cases I; injection I as <- <- <-.
  all: split; [reflexivity|]; split; [reflexivity|].
  all: split; [do 2 eexists; split; [find_member | reflexivity]|].
  all: split; find_member.
Qed.

Lemma published_profile_stored_witness :
  In (SetIpfsUrl "https://w3s.link/ipfs/bafy")
     (events (ProfilePage.onSubmit (profileWith [diploma] [] [])) envReady).
Proof.
  assert (I : In (StorageSetProfile "profile_published" (profileWith [diploma] [] [])
                    "https://w3s.link/ipfs/bafy")
                 (events (ProfilePage.onSubmit (profileWith [diploma] [] [])) envReady)).
  { vm_compute. tauto. }
  apply (published_profile_stored envReady (profileWith [diploma] [] []) _ _ _ I).
Defined.


(** ** Validation, in closed form *)

(** X15: the message of the profile page names the first role, in the
    order certifications, portfolio, profile picture, that has a file over
    5MB; every portfolio file is checked, also after the tenth, and only the
    first profile picture is.  When no file is over the limit the files are
    kept in the order of their selection.  The job page rejects when any
    attachment is over 10MB and keeps all of them otherwise. *)
Theorem validation_result (data : ProfileFormValues) (job : JobFormValues) :
  let big := fun f => 5 * 1024 * 1024 <? file_size f in
  let certs := ProfilePage.fileList (certifications data) in
  let pfs := ProfilePage.fileList (portfolioFiles data) in
  let pics := ProfilePage.fileList (profilePicture data) in
  ProfilePage.collect data
  = (if existsb big certs then inl "Certification exceeds 5MB"%string
     else if existsb big pfs then inl "Portfolio file exceeds 5MB"%string
     else if existsb big (firstn 1 pics)
          then inl "Profile picture exceeds 5MB"%string
          else inr (certs, pfs, firstn 1 pics))
  /\ PostJobPage.pushChecked (PostJobPage.fileList (job_attachments job)) []
     = (if existsb (fun f => 10 * 1024 * 1024 <? file_size f)
                   (PostJobPage.fileList (job_attachments job))
        then None
        else Some (PostJobPage.fileList (job_attachments job))).
Proof.
  cbv zeta. split.
  - unfold ProfilePage.collect.
    rewrite !profile_pushChecked, profile_pushFirst.
    destruct (existsb _ (ProfilePage.fileList (certifications data)));
      [reflexivity|].
    destruct (existsb _ (ProfilePage.fileList (portfolioFiles data)));
      [reflexivity|].
    destruct (existsb _ (firstn 1 _)); reflexivity.
  - rewrite job_pushChecked. reflexivity.
Qed.

(** ** The matching engine, further *)

Lemma filter_length_all {A : Type} (f : A -> bool) (l : list A) :
  (forall x, In x l -> f x = true) -> List.length (filter f l) = List.length l.
Proof.
  induction l as [|a l IH]; intros H; cbn [filter List.length]; [reflexivity|].
  rewrite (H a (or_introl eq_refl)). cbn [List.length]. f_equal.
  apply IH. intros x Hx. apply H. now right.
Qed.

Lemma filter_length_none {A : Type} (f : A -> bool) (l : list A) :
  (forall x, In x l -> f x = false) -> List.length (filter f l) = 0%nat.
Proof.
  induction l as [|a l IH]; intros H; cbn [filter]; [reflexivity|].
  rewrite (H a (or_introl eq_refl)). apply IH. intros x Hx. apply H. now right.
Qed.

Lemma filter_length_mono {A : Type} (f g : A -> bool) (l : list A) :
  (forall x, In x l -> f x = true -> g x = true) ->
  (List.length (filter f l) <= List.length (filter g l))%nat.
Proof.
  induction l as [|a l IH]; intros H; cbn [filter]; [lia|].
  assert (IH' : (List.length (filter f l) <= List.length (filter g l))%nat).
  { apply IH. intros x Hx. apply H. now right. }
  pose proof (H a (or_introl eq_refl)) as Ha.
  destruct (f a); destruct (g a); cbn [List.length];
    first [lia | discriminate (Ha eq_refl)].
Qed.

Lemma filter_length_perm {A : Type} (f : A -> bool) (l l' : list A) :
  Permutation l l' -> List.length (filter f l) = List.length (filter f l').
Proof.
  induction 1 as [|x l l' P IH|x y l|l l' l'' P1 IH1 P2 IH2];
    cbn [filter]; try reflexivity.
  - destruct (f x); cbn [List.length]; now rewrite IH.
  - destruct (f x); destruct (f y); reflexivity.
  - now rewrite IH1.
Qed.

Lemma includes_In (l : list string) (s : string) :
  JS.includes l s = true <-> In s l.
Proof.
  unfold JS.includes. rewrite existsb_exists. split.
  - intros [x [Hx E]]. apply String.eqb_eq in E. now subst.
  - intros H. exists s. split; [assumption | apply String.eqb_refl].
Qed.

Lemma Math_round_monotone (k1 k2 n : Z) :
  1 <= n -> k1 <= k2 ->
  JS.Math_round ((inject_Z k1 / inject_Z n) * 60)
  <= JS.Math_round ((inject_Z k2 / inject_Z n) * 60).
Proof.
  intros Hn Hk.
  pose proof (Math_round_nearest k1 n Hn) as H1.
  pose proof (Math_round_nearest k2 n Hn) as H2.
  cbv zeta in H1, H2. nia.
Qed.

(** X16: a service that lists every required skill gets the full 60 for
    skills, when at least one skill is required. *)
Theorem skillScore_full_coverage (job : JobFormValues) (service : ServiceMock) :
  job_skills job <> [] ->
  (forall s, In s (job_skills job) -> In s (skills service)) ->
  skillScore job service = 60.
Proof.
  intros Hne Hall. rewrite skillScore_uncapped. unfold skillOverlap.
  rewrite filter_length_all
    by (intros x Hx; apply includes_In, Hall, Hx).
  assert (Hn : (1 <= List.length (job_skills job))%nat).
  { destruct (job_skills job); [contradiction | cbn; lia]. }
  pose proof (Math_round_nearest (Z.of_nat (List.length (job_skills job)))
                (Z.max 1 (Z.of_nat (List.length (job_skills job))))
                ltac:(lia)) as Hr.
  cbv zeta in Hr. rewrite Z.max_r in * by lia. nia.
Qed.

Lemma skillScore_full_coverage_witness :
  skillScore seniorSolidityJob solidityEngineer = 60.
Proof.
  apply (skillScore_full_coverage seniorSolidityJob solidityEngineer).
  - discriminate.
  - intros s Hs. cbn in Hs. destruct Hs as [<-|[<-|[]]]; cbn; tauto.
Defined.

(** X17: a service that lists none of the required skills gets 0 for
    skills. *)
Theorem skillScore_no_overlap (job : JobFormValues) (service : ServiceMock) :
  (forall s, In s (job_skills job) -> ~ In s (skills service)) ->
  skillScore job service = 0.
Proof.
  intros Hnone. rewrite skillScore_uncapped. unfold skillOverlap.
  rewrite filter_length_none.
  - pose proof (Math_round_nearest 0
                  (Z.max 1 (Z.of_nat (List.length (job_skills job))))
                  ltac:(lia)) as Hr.
    cbv zeta in Hr. cbn [Z.of_nat]. nia.
  - intros x Hx. destruct (JS.includes (skills service) x) eqn:E; [|reflexivity].
    apply includes_In in E. destruct (Hnone x Hx E).
Qed.

Lemma skillScore_no_overlap_witness :
  skillScore seniorSolidityJob web3FrontendDev = 0.
Proof.
  apply (skillScore_no_overlap seniorSolidityJob web3FrontendDev).
  intros s Hs Hi. cbn in Hs, Hi.
  destruct Hs as [<-|[<-|[]]];
    repeat (destruct Hi as [Hi|Hi]; [discriminate Hi|]); exact Hi.
Defined.

(** X18: a service that lists all the skills another one lists never gets
    less for skills, for any job. *)
Theorem skillScore_monotone (job : JobFormValues) (s1 s2 : ServiceMock) :
  (forall x, In x (skills s1) -> In x (skills s2)) ->
  skillScore job s1 <= skillScore job s2.
Proof.
  intros Hsub. rewrite !skillScore_uncapped.
  apply Math_round_monotone; [lia|].
  unfold skillOverlap. apply inj_le. apply filter_length_mono.
  intros x _ Hx. apply includes_In. apply Hsub. now apply includes_In.
Qed.

Lemma skillScore_monotone_witness :
  skillScore seniorSolidityJob defiStrategist
  <= skillScore seniorSolidityJob
       (mkService "A" "B" ["AI/ML"; "Design"; "Security"; "Solidity"]%string
          Expert 80%float 150%float true).
Proof.
  apply (skillScore_monotone seniorSolidityJob defiStrategist).
  intros x Hx. cbn in Hx |- *. tauto.
Defined.

(** X19: the skill component does not depend on the order of the skills,
    on either side, nor on repetitions in the list of the service. *)
Theorem skillScore_order_insensitive
        (job1 job2 : JobFormValues) (s1 s2 : ServiceMock) :
  Permutation (job_skills job1) (job_skills job2) ->
  (forall x, In x (skills s1) <-> In x (skills s2)) ->
  skillScore job1 s1 = skillScore job2 s2.
Proof.
  intros P Hsame. rewrite !skillScore_uncapped. unfold skillOverlap.
  rewrite (Permutation_length P).
  rewrite (filter_length_perm (fun s => JS.includes (skills s1) s) _ _ P).
  assert (E : List.length (filter (fun s => JS.includes (skills s1) s)
                             (job_skills job2))
              = List.length (filter (fun s => JS.includes (skills s2) s)
                               (job_skills job2))).
  { apply Nat.le_antisymm; apply filter_length_mono; intros x _ Hx;
      apply includes_In; apply Hsame; now apply includes_In. }
  rewrite E. reflexivity.
Qed.

Lemma skillScore_order_insensitive_witness :
  skillScore seniorSolidityJob solidityEngineer
  = skillScore seniorSolidityJob
      (mkService "A" "B" ["Security"; "Hardhat"; "Solidity"; "Security"]%string
         Senior 50%float 100%float true).
Proof.
  apply (skillScore_order_insensitive seniorSolidityJob seniorSolidityJob).
  - apply Permutation_refl.
  - intros x. cbn. tauto.
Defined.

Section MatchingFurther.
Variable parseFloat : string -> float.

(** X20: neither [Math.min(100, ...)] of [computeMatch] ever changes a
    value: the skill component is the rounded quotient and the total is the
    plain sum of the four components. *)
Theorem computeMatch_caps_inactive (job : JobFormValues) (service : ServiceMock) :
  skillScore job service
  = JS.Math_round
      ((inject_Z (skillOverlap job service)
        / inject_Z (Z.max 1 (Z.of_nat (List.length (job_skills job))))) * 60)
  /\ computeMatch parseFloat job service
     = skillScore job service + expScore job service
       + budgetFit parseFloat job service + remoteFit job service.
Proof.
  split; [apply skillScore_uncapped|].
  rewrite computeMatch_breakdown.
  pose proof (skillScore_bounds job service).
  pose proof (expScore_bounds job service).
  pose proof (budgetFit_bounds parseFloat job service).
  pose proof (remoteFit_bounds job service).
  lia.
Qed.

(** X21: the total is 100 exactly when all four components are at their
    maximum: the skill component is 60, the levels are equal, the price
    range of the service lies within the budget, and the job is remote and
    so is the service. *)
Theorem computeMatch_perfect_iff (job : JobFormValues) (service : ServiceMock) :
  computeMatch parseFloat job service = 100
  <-> skillScore job service = 60
      /\ job_experience job = experience service
      /\ PrimFloat.leb (parseFloat (JS.strOr (job_budgetMin job) "0"))
                       (priceMin service)
         && PrimFloat.leb (priceMax service)
                          (parseFloat (JS.strOr (job_budgetMax job) "0")) = true
      /\ job_locationPref job = Remote
      /\ remote service = true.
Proof.
  rewrite computeMatch_breakdown.
  pose proof (skillScore_bounds job service) as Hs.
  pose proof (expScore_bounds job service) as He.
  pose proof (budgetFit_bounds parseFloat job service) as Hb.
  pose proof (remoteFit_bounds job service) as Hr.
  assert (E20 : expScore job service = 20
                <-> job_experience job = experience service).
  { rewrite expScore_cases.
    destruct (Experience_eqb_spec (job_experience job) (experience service)).
    - tauto.
    - destruct (_ <? _); split; intros; try contradiction; lia. }
  assert (B15 : budgetFit parseFloat job service = 15
                <-> PrimFloat.leb (parseFloat (JS.strOr (job_budgetMin job) "0"))
                                  (priceMin service)
                    && PrimFloat.leb (priceMax service)
                                     (parseFloat (JS.strOr (job_budgetMax job) "0"))
                    = true).
  { unfold budgetFit. cbv zeta. destruct (_ && _); split; intros; try reflexivity;
      try discriminate; lia. }
  assert (R5 : remoteFit job service = 5
               <-> job_locationPref job = Remote /\ remote service = true).
  { unfold remoteFit. destruct (job_locationPref job); destruct (remote service);
      split; intros H; try (destruct H; discriminate); try lia; tauto. }
  rewrite <- E20, <- B15, <- and_assoc, <- (and_assoc (_ /\ _)), <- R5.
  lia.
Qed.

(** X22: every match that is returned is a service of the catalogue with
    its own score, and as many matches are returned as the catalogue has
    services, up to 3. *)
Theorem topMatches_entries (services : list ServiceMock) (job : JobFormValues) :
  List.length (topMatchesOf parseFloat services job)
  = Nat.min 3 (List.length services)
  /\ forall a, In a (topMatchesOf parseFloat services job) ->
               In (svc a) services
               /\ score a = computeMatch parseFloat job (svc a).
Proof.
  unfold topMatchesOf, JS.slice0. split.
  - rewrite length_firstn.
    change (fun a b : Scored => score b - score a) with (descending score).
    rewrite (sort_length score), length_map. reflexivity.
  - intros a Ha.
    assert (I : In a (map (fun s => mkScored s (computeMatch parseFloat job s))
                        services)).
    { apply (sort_In score).
      rewrite <- (firstn_skipn 3 (JS.sort _ _)). apply in_or_app. now left. }
    apply in_map_iff in I. destruct I as [s [<- Hs]]. now split.
Qed.





Lemma insert_perm {A : Type} (cmp : A -> A -> Z) (x : A) (l : list A) :
  Permutation (JS.insert cmp x l) (x :: l).
Proof.
  induction l as [|y r IH]; cbn [JS.insert]; [apply Permutation_refl|].
  destruct (cmp y x <? 0); [|apply Permutation_refl].
  eapply perm_trans; [apply perm_skip, IH | apply perm_swap].
Qed.

Lemma sort_perm {A : Type} (cmp : A -> A -> Z) (l : list A) :
  Permutation (JS.sort cmp l) l.
Proof.
  induction l as [|x r IH]; cbn [JS.sort]; [apply perm_nil|].
  eapply perm_trans; [apply insert_perm | apply perm_skip, IH].
Qed.

(** X24: [getTopMatches] returns the three services of the catalogue, each
    once, for every job: the catalogue has 3 entries, so [slice(0, 3)] drops
    none. *)
Theorem getTopMatches_all (job : JobFormValues) :
  Permutation (map svc (getTopMatches parseFloat job)) MOCK_SERVICES
  /\ List.length (getTopMatches parseFloat job) = 3%nat.
Proof.
  unfold getTopMatches, topMatchesOf, JS.slice0.
  rewrite firstn_all2.
  - split.
    + eapply perm_trans; [apply Permutation_map, sort_perm|].
      rewrite map_map. cbn [svc]. rewrite map_id. apply Permutation_refl.
    + change (fun a b : Scored => score b - score a) with (descending score).
      rewrite (sort_length score), length_map. reflexivity.
  - change (fun a b : Scored => score b - score a) with (descending score).
    rewrite (sort_length score), length_map. cbn. lia.
Qed.

End MatchingFurther.


(** ** The schema of the job form *)

Lemma afterDigits_not_digit (s : string) :
  match afterDigits s with
  | EmptyString => True
  | String d _ => isDigit d = false
  end.
Proof.
  induction s as [|c r IH]; cbn [afterDigits]; [exact I|].
  destruct (isDigit c) eqn:E; [exact IH | exact E].
Qed.

Lemma afterDigits_split (s : string) :
  exists i, allDigits i = true /\ s = (i ++ afterDigits s)%string.
Proof.
  induction s as [|c r IH]; cbn [afterDigits].
  - exists EmptyString. split; reflexivity.
  - destruct (isDigit c) eqn:E.
    + destruct IH as [i [Hi Hs]]. exists (String c i). split.
      * cbn [allDigits]. now rewrite E, Hi.
      * cbn [String.append]. now rewrite <- Hs.
    + exists EmptyString. split; reflexivity.
Qed.

Lemma afterDigits_app (i r : string) :
  allDigits i = true ->
  afterDigits (i ++ r) = afterDigits r.
Proof.
  induction i as [|c i IH]; cbn [allDigits String.append afterDigits];
    [reflexivity|].
  intros H. apply andb_true_iff in H. destruct H as [Hc Hi].
  rewrite Hc. apply IH, Hi.
Qed.

(** X25: the amounts that the schema accepts are the strings made of one or
    more digits, alone or followed by a dot and 1 to 18 digits; in
    particular an accepted amount is not empty and has no sign and no
    exponent. *)
Theorem isAmount_iff (s : string) :
  isAmount s = true
  <-> exists i f,
        allDigits i = true /\ i <> EmptyString
        /\ allDigits f = true
        /\ (s = i
            \/ (s = (i ++ String "." f)%string
                /\ (1 <= String.length f <= 18)%nat)).
Proof.
  split.
  - unfold isAmount. destruct s as [|c r]; [discriminate|].
    intros H. apply andb_true_iff in H. destruct H as [Hc H].
    destruct (afterDigits_split (String c r)) as [i [Hi Hs]].
    assert (Ni : i <> EmptyString).
    { intros ->. cbn [String.append] in Hs.
      pose proof (afterDigits_not_digit (String c r)) as N.
      rewrite <- Hs in N. congruence. }
    destruct (afterDigits (String c r)) as [|d f].
    + exists i, EmptyString. repeat split; try assumption.
      left. rewrite Hs. clear. induction i; cbn; congruence.
    + apply andb_true_iff in H. destruct H as [H Hl].
      apply andb_true_iff in H. destruct H as [Hd Hf].
      apply Ascii.eqb_eq in Hd. subst d.
      apply andb_true_iff in Hl. destruct Hl as [L1 L2].
      apply Nat.leb_le in L1. apply Nat.leb_le in L2.
      exists i, f. repeat split; try assumption.
      right. repeat split; assumption.
  - intros [i [f [Hi [Ni [Hf [E|[E L]]]]]]]; subst s.
    + unfold isAmount. destruct i as [|c i]; [contradiction|].
      cbn [allDigits] in Hi. apply andb_true_iff in Hi. destruct Hi as [Hc Hi].
      rewrite Hc. cbn [andb afterDigits]. rewrite Hc.
      replace i with (i ++ EmptyString)%string
        by (clear; induction i; cbn; congruence).
      rewrite (afterDigits_app i EmptyString Hi). reflexivity.
    + unfold isAmount. destruct i as [|c i]; [contradiction|].
      cbn [allDigits] in Hi. apply andb_true_iff in Hi. destruct Hi as [Hc Hi].
      cbn [String.append]. rewrite Hc. cbn [andb afterDigits]. rewrite Hc.
      rewrite (afterDigits_app i _ Hi). cbn [afterDigits].
      change (isDigit ".") with false. cbv iota.
      rewrite Ascii.eqb_refl, Hf. cbn [andb].
      apply andb_true_iff. split; apply Nat.leb_le; lia.
Qed.

(** X26: for a job that passes the schema, the two guards of
    [computeMatch] do nothing: at least one skill is required, so the
    quotient is taken over the number of required skills, and the two budget
    strings are not empty, so they are parsed as they are. *)
Theorem valid_job_guards_inactive (job : JobFormValues) :
  jobSchema job = [] ->
  Z.max 1 (Z.of_nat (List.length (job_skills job)))
  = Z.of_nat (List.length (job_skills job))
  /\ JS.strOr (job_budgetMin job) "0" = job_budgetMin job
  /\ JS.strOr (job_budgetMax job) "0" = job_budgetMax job
  /\ isAmount (job_budgetMin job) = true
  /\ isAmount (job_budgetMax job) = true.
Proof.
  unfold jobSchema, minLength, amount. intros H.
  repeat (apply app_eq_nil in H; destruct H as [? H]).
  destruct (List.length (job_skills job) <? 1)%nat eqn:L; [discriminate|].
  apply Nat.ltb_ge in L.
  destruct (isAmount (job_budgetMin job)) eqn:A1; [|discriminate].
  destruct (isAmount (job_budgetMax job)) eqn:A2; [|discriminate].
  split; [lia|].
  assert (N : forall s, isAmount s = true -> JS.strOr s "0" = s).
  { intros s Hs. destruct s; [discriminate | reflexivity]. }
  repeat split; auto.
Qed.

Lemma valid_job_guards_inactive_witness :
  JS.strOr (job_budgetMax validJob) "0" = job_budgetMax validJob.
Proof.
  apply (valid_job_guards_inactive validJob). reflexivity.
Defined.

Example isAmount_samples :
  map isAmount ["50"; "100.5"; "0.000000000000000001"; ""; ".5"; "5."; "-5";
                "1e5"; "1.5.2"; "0.0000000000000000001"]%string
  = [true; true; true; false; false; false; false; false; false; false].
Proof. reflexivity. Qed.

Example jobSchema_samples :
  jobSchema validJob = []
  /\ jobSchema noSkillJob
     = [ ("description", "Description must be at least 100 characters");
         ("skills", "Select at least one skill") ]%string.
Proof. split; reflexivity. Qed.
